(** * cfddns: a dynamic-DNS updater for Cloudflare A records

    A shallow embedding of [src/cfddns.py] and the properties of its
    workflow: detect the public IP, compare it with the cached one, push
    the change to the provider, persist the new value.

    The program is a sequence of effects (HTTP requests, one cache file,
    the wall clock, standard output).  They are modelled by a state and
    exception monad over an explicit [World]; what the outside answers
    (network, clock, the interpreter's parsers) is an [Env]. *)

From Stdlib Require Import ZArith Ascii String List Lia Bool.
From stdpp Require Import gmap strings.

Local Open Scope Z_scope.
Set Warnings "-register-all".

(** ** Python strings

    A Python [str] is modelled by [string]; a character is a code point
    below 256. *)
Module PyStr.

(** [str.isspace] on one code point: U+0009..U+000D, U+001C..U+0020,
    U+0085 and U+00A0. *)
Definition is_space (c : ascii) : bool :=
  let n := Z.of_nat (nat_of_ascii c) in
  ((9 <=? n) && (n <=? 13)) || ((28 <=? n) && (n <=? 32))
  || (n =? 133) || (n =? 160).

Fixpoint lstrip (s : string) : string :=
  match s with
  | EmptyString => EmptyString
  | String c s' => if is_space c then lstrip s' else s
  end.

Fixpoint rstrip (s : string) : string :=
  match s with
  | EmptyString => EmptyString
  | String c s' =>
      match rstrip s' with
      | EmptyString => if is_space c then EmptyString else String c EmptyString
      | r => String c r
      end
  end.

(** [s.strip()] *)
Definition strip (s : string) : string := rstrip (lstrip s).

(** [s.split(sep)] for a one-character separator: never the empty list. *)
Fixpoint split (sep : ascii) (s : string) : list string :=
  match s with
  | EmptyString => [EmptyString]
  | String c s' =>
      if Ascii.eqb c sep then EmptyString :: split sep s'
      else match split sep s' with
           | h :: t => String c h :: t
           | [] => [String c EmptyString]
           end
  end.

(** [sub in s] between two strings. *)
Fixpoint is_substring (sub s : string) : bool :=
  String.prefix sub s
  || match s with
     | EmptyString => false
     | String _ s' => is_substring sub s'
     end.

(** Every character of [s] satisfies [p]. *)
Fixpoint all_chars (p : ascii -> bool) (s : string) : bool :=
  match s with
  | EmptyString => true
  | String c s' => p c && all_chars p s'
  end.

Definition comma : ascii := ","%char.
Definition CR : ascii := ascii_of_nat 13.
Definition LF : ascii := ascii_of_nat 10.

(** What a file opened in text mode gives on reading: a carriage return
    becomes a line feed, and a line feed that follows a carriage return is
    dropped, so that CR LF and a lone CR both read as LF.  [after_cr]
    tells that the character before was a carriage return. *)
Fixpoint translate (after_cr : bool) (s : string) : string :=
  match s with
  | EmptyString => EmptyString
  | String c s' =>
      if Ascii.eqb c CR then String LF (translate true s')
      else if Ascii.eqb c LF && after_cr then translate false s'
      else String c (translate false s')
  end.

Definition universal_newlines (s : string) : string := translate false s.

(** [s] holds no carriage return. *)
Definition cr_free (s : string) : bool :=
  all_chars (fun c => negb (Ascii.eqb c CR)) s.

Definition comma_free (s : string) : bool :=
  all_chars (fun c => negb (Ascii.eqb c comma)) s.

(** [s] does not begin with a whitespace character. *)
Definition no_leading_space (s : string) : bool :=
  match s with
  | EmptyString => true
  | String c _ => negb (is_space c)
  end.

(** The last character of [s] is not whitespace ([s] is not empty). *)
Fixpoint ends_solid (s : string) : bool :=
  match s with
  | EmptyString => false
  | String c EmptyString => negb (is_space c)
  | String _ s' => ends_solid s'
  end.

End PyStr.

(** ** Exceptions and outcomes *)

(** The exceptions the program can meet; all are subclasses of
    [Exception].  [Exception_ msg] is the program's own
    [raise Exception(msg)]. *)
Inductive exn : Type :=
| Exception_ (msg : string)
| KeyError (key : string)
| TypeError
| ValueError
| AttributeError (obj attr : string)
| FileNotFoundError (path : string)
| JSONDecodeError
| RequestException (what : string).

Inductive result (A : Type) : Type :=
| Ok (a : A)
| Err (e : exn).
Arguments Ok {A} a.
Arguments Err {A} e.

Definition is_ok {A} (r : result A) : bool :=
  match r with Ok _ => true | Err _ => false end.

(** ** JSON values, as [json.load] and [response.json()] build them

    An object is the list of its members in order, duplicate keys already
    merged by the parser; numbers are the integers. *)
Inductive json : Type :=
| JNull
| JBool (b : bool)
| JInt (z : Z)
| JStr (s : string)
| JArr (l : list json)
| JObj (l : list (string * json)).

Module Py.

Fixpoint assoc {A} (k : string) (l : list (string * A)) : option A :=
  match l with
  | [] => None
  | (k', v) :: l' => if String.eqb k k' then Some v else assoc k l'
  end.

(** [bool(v)], the test behind [if not v]. *)
Definition truthy (v : json) : bool :=
  match v with
  | JNull => false
  | JBool b => b
  | JInt z => negb (z =? 0)
  | JStr s => negb (String.eqb s "")
  | JArr l => match l with [] => false | _ => true end
  | JObj l => match l with [] => false | _ => true end
  end.

(** An empty string, list or object. *)
Definition empty (v : json) : bool :=
  match v with
  | JStr "" | JArr [] | JObj [] => true
  | _ => false
  end.

(** [a == b] *)
Fixpoint eq (a b : json) {struct a} : bool :=
  match a, b with
  | JNull, JNull => true
  | JBool x, JBool y => Bool.eqb x y
  | JBool x, JInt n => n =? (if x then 1 else 0)
  | JInt n, JBool x => n =? (if x then 1 else 0)
  | JInt m, JInt n => m =? n
  | JStr s, JStr t => String.eqb s t
  | JArr l, JArr m =>
      (fix go (l m : list json) : bool :=
         match l, m with
         | [], [] => true
         | x :: l', y :: m' => eq x y && go l' m'
         | _, _ => false
         end) l m
  | JObj l, JObj m =>
      Nat.eqb (length l) (length m)
      && (fix go (l : list (string * json)) : bool :=
            match l with
            | [] => true
            | (k, v) :: l' =>
                match assoc k m with
                | Some w => eq v w
                | None => false
                end && go l'
            end) l
  | _, _ => false
  end.

(** [v[key]] with a string key. *)
Definition getitem (v : json) (key : string) : result json :=
  match v with
  | JObj l => match assoc key l with
              | Some x => Ok x
              | None => Err (KeyError key)
              end
  | _ => Err TypeError
  end.

Definition chars (s : string) : list json :=
  map (fun c => JStr (String c EmptyString)) (list_ascii_of_string s).

(** The items a [for] loop over [v] visits. *)
Definition iter (v : json) : result (list json) :=
  match v with
  | JArr l => Ok l
  | JObj l => Ok (map (fun kv => JStr (fst kv)) l)
  | JStr s => Ok (chars s)
  | _ => Err TypeError
  end.

(** [x in c] *)
Definition contains (c x : json) : result bool :=
  match c with
  | JArr l => Ok (existsb (fun y => eq y x) l)
  | JStr s => match x with
              | JStr t => Ok (PyStr.is_substring t s)
              | _ => Err TypeError
              end
  | JObj l => match x with
              | JArr _ | JObj _ => Err TypeError
              | _ => Ok (existsb (fun kv => eq (JStr (fst kv)) x) l)
              end
  | _ => Err TypeError
  end.

End Py.

(** ** Naive datetimes and timedeltas *)
Module Datetime.

Record datetime : Type := mk_datetime {
  year : Z; month : Z; day : Z;
  hour : Z; minute : Z; second : Z; microsecond : Z
}.

(** [days], [seconds], [microseconds] of a [timedelta], normalised as
    Python keeps them: [0 <= seconds < 86400], [0 <= microseconds < 10^6]. *)
Record timedelta : Type := mk_timedelta {
  days : Z; seconds : Z; microseconds : Z
}.

(** [timedelta(days=d, seconds=s, microseconds=us)] *)
Definition timedelta_of (d s us : Z) : timedelta :=
  let s1 := s + us / 1000000 in
  {| days := d + s1 / 86400;
     seconds := s1 mod 86400;
     microseconds := us mod 1000000 |}.

Definition total_microseconds (t : timedelta) : Z :=
  (days t * 86400 + seconds t) * 1000000 + microseconds t.

Definition is_leap (y : Z) : bool :=
  (y mod 4 =? 0) && (negb (y mod 100 =? 0) || (y mod 400 =? 0)).

Definition days_before_year (y : Z) : Z :=
  let p := y - 1 in p * 365 + p / 4 - p / 100 + p / 400.

Definition days_in_month (y m : Z) : Z :=
  if m =? 2 then (if is_leap y then 29 else 28)
  else if (m =? 4) || (m =? 6) || (m =? 9) || (m =? 11) then 30
  else 31.

Fixpoint days_before_month_aux (y : Z) (k : nat) : Z :=
  match k with
  | O => 0
  | S k' => days_before_month_aux y k' + days_in_month y (Z.of_nat k)
  end.

Definition days_before_month (y m : Z) : Z :=
  days_before_month_aux y (Z.to_nat (m - 1)).

(** [d.toordinal()]: 1 for 0001-01-01. *)
Definition toordinal (d : datetime) : Z :=
  days_before_year (year d) + days_before_month (year d) (month d) + day d.

(** [a - b] between two naive datetimes. *)
Definition sub (a b : datetime) : timedelta :=
  timedelta_of
    (toordinal a - toordinal b)
    ((second a + minute a * 60 + hour a * 3600)
     - (second b + minute b * 60 + hour b * 3600))
    (microsecond a - microsecond b).

(** Microseconds since the start of day 0 of the calendar. *)
Definition to_us (d : datetime) : Z :=
  (toordinal d * 86400 + (second d + minute d * 60 + hour d * 3600)) * 1000000
  + microsecond d.

Definition digit (n : Z) : ascii := ascii_of_nat (48 + Z.to_nat (n mod 10)).

(** ["%0wd" % n], the last [w] decimal digits of [n]. *)
Fixpoint pad (w : nat) (n : Z) : string :=
  match w with
  | O => EmptyString
  | S w' => pad w' (n / 10) +:+ String (digit n) EmptyString
  end.

(** [d.isoformat()]: [YYYY-MM-DDTHH:MM:SS], followed by [.ffffff] when the
    microseconds are not zero. *)
Definition isoformat (d : datetime) : string :=
  pad 4 (year d) +:+ "-" +:+ pad 2 (month d) +:+ "-" +:+ pad 2 (day d)
  +:+ "T" +:+ pad 2 (hour d) +:+ ":" +:+ pad 2 (minute d)
  +:+ ":" +:+ pad 2 (second d)
  +:+ (if microsecond d =? 0 then "" else "." +:+ pad 6 (microsecond d)).

(** What [datetime.fromisoformat] can return: a naive datetime, or one that
    carries a UTC offset. *)
Inductive parsed : Type :=
| Naive (d : datetime)
| Aware (d : datetime) (offset : timedelta).

Definition valid (d : datetime) : bool :=
  (1 <=? year d) && (year d <=? 9999)
  && (1 <=? month d) && (month d <=? 12)
  && (1 <=? day d) && (day d <=? days_in_month (year d) (month d))
  && (0 <=? hour d) && (hour d <=? 23)
  && (0 <=? minute d) && (minute d <=? 59)
  && (0 <=? second d) && (second d <=? 59)
  && (0 <=? microsecond d) && (microsecond d <=? 999999).

End Datetime.

Import Datetime.

(** ** The outside world *)

(** The three addresses the program builds: an IP-echo service, and the two
    provider endpoints [{base}/zones/{zone_id}/dns_records] and
    [{base}/zones/{zone_id}/dns_records/batch].  The values interpolated into
    them are kept as they are. *)
Inductive url : Type :=
| IpService (address : string)
| DnsRecords (base : string) (zone : json)
| DnsRecordsBatch (base : string) (zone : json).

(** [{'Authorization': f'Bearer {token}', 'Content-Type': content_type}] *)
Record headers : Type := mk_headers {
  bearer : json;
  content_type : string
}.

Inductive request : Type :=
| GET (u : url) (h : option headers) (timeout : option Z)
| POST (u : url) (h : option headers) (body : json).

Record response : Type := mk_response {
  status_code : Z;
  text : string
}.

(** A line printed on standard output, kept as the values formatted into it:
    [[<at> INFO] IP changed from <last_ip> to <current_ip>, after <elapsed>]
    and [[<at> ERROR] <str(e)>]. *)
Inductive log_line : Type :=
| InfoLine (at_time : datetime) (last_ip current_ip : string) (elapsed : timedelta)
| ErrorLine (at_time : datetime) (e : exn).

(** What the outside answers: the directory of the program, the network
    (a response or an exception per request), the successive readings of
    [datetime.now()], and the two library parsers the program calls,
    [None] standing for their error. *)
Record Env : Type := mk_env {
  wd : string;
  net : request -> result response;
  clock : nat -> datetime;
  json_loads : string -> option json;
  fromisoformat : string -> option parsed
}.

(** What the program does that can be seen from outside, in the order in
    which it does it: a request sent, a line printed. *)
Inductive event : Type :=
| Sent (r : request)
| Printed (l : log_line).

(** What the program can change: the files, how often the clock was read,
    the requests sent (oldest first), the lines printed (oldest first), and
    the two together in the order in which they happened. *)
Record World : Type := mk_world {
  fs : gmap string string;
  ticks : nat;
  trace : list request;
  stdout : list log_line;
  events : list event
}.

(** ** The monad of effects: state and exceptions *)

Definition M (A : Type) : Type := World -> result A * World.

#[global] Instance result_ret : MRet result := fun A a => Ok a.
#[global] Instance result_bind : MBind result := fun A B f r =>
  match r with
  | Ok a => f a
  | Err e => Err e
  end.

#[global] Instance M_ret : MRet M := fun A a w => (Ok a, w).
#[global] Instance M_bind : MBind M := fun A B f m w =>
  match m w with
  | (Ok a, w') => f a w'
  | (Err e, w') => (Err e, w')
  end.

Definition raise {A} (e : exn) : M A := fun w => (Err e, w).

(** [try: m  except ... as e: h e]; a handler re-raises what it does not
    handle. *)
Definition catch {A} (m : M A) (h : exn -> M A) : M A := fun w =>
  match m w with
  | (Ok a, w') => (Ok a, w')
  | (Err e, w') => h e w'
  end.

Definition lift {A} (r : result A) : M A := fun w => (r, w).

(** [datetime.now()] *)
Definition now (env : Env) : M datetime := fun w =>
  (Ok (clock env (ticks w)),
   {| fs := fs w; ticks := S (ticks w); trace := trace w; stdout := stdout w;
      events := events w |}).

(** [open(path, 'r')] followed by [f.read()]: the file is read in text
    mode, with universal newlines.  The encoding of the files is taken to
    hold every character, as UTF-8 does. *)
Definition read_file (path : string) : M string := fun w =>
  match fs w !! path with
  | Some content => (Ok (PyStr.universal_newlines content), w)
  | None => (Err (FileNotFoundError path), w)
  end.

(** [open(path, 'w')] followed by [f.write(content)]; on a POSIX system the
    text is stored as it is. *)
Definition write_file (path content : string) : M unit := fun w =>
  (Ok tt,
   {| fs := <[path := content]> (fs w); ticks := ticks w;
      trace := trace w; stdout := stdout w; events := events w |}).

(** [requests.get] and [requests.post]: the request is sent, then the
    network answers or raises. *)
Definition http (env : Env) (r : request) : M response := fun w =>
  (net env r,
   {| fs := fs w; ticks := ticks w; trace := trace w ++ [r]; stdout := stdout w;
      events := events w ++ [Sent r] |}).

(** [print(line)] *)
Definition print (l : log_line) : M unit := fun w =>
  (Ok tt,
   {| fs := fs w; ticks := ticks w; trace := trace w; stdout := stdout w ++ [l];
      events := events w ++ [Printed l] |}).

(** [json.load] and [response.json()] *)
Definition parse_json (env : Env) (s : string) : M json :=
  match json_loads env s with
  | Some v => mret v
  | None => raise JSONDecodeError
  end.

(** ** The program *)

(** [a != b] between two values that are strings or [None]. *)
Definition str_ne (a b : option string) : bool :=
  match a, b with
  | None, None => false
  | Some x, Some y => negb (String.eqb x y)
  | _, _ => true
  end.

(** [get_now_str]: the reading of the clock, kept as the datetime that
    [strftime] renders. *)
Definition get_now_str (env : Env) : M datetime := now env.

(** [log_change]: nothing is printed without a previous address.  The
    elapsed time is kept as the [timedelta] that [get_et_str] renders. *)
Definition log_change (env : Env) (current_ip : string)
    (last_ip : option string) (et_last_changed : option timedelta) : M unit :=
  match last_ip with
  | None => mret tt
  | Some last =>
      if String.eqb last "" then mret tt
      else
        match et_last_changed with
        | None => raise (AttributeError "NoneType" "days")
        | Some et =>
            t ← get_now_str env;
            print (InfoLine t last current_ip et)
        end
  end.

Definition log_error (env : Env) (e : exn) : M unit :=
  t ← get_now_str env;
  print (ErrorLine t e).

(** The outcome of one pass through a loop body. *)
Inductive flow (A : Type) : Type :=
| Return (a : A)
| Continue.
Arguments Return {A} a.
Arguments Continue {A}.

Module CloudflareDDNS.

Record self : Type := mk_self {
  api_token : json;
  zone_id : json;
  domains : json;
  ip_cache_file : string;
  cf_api_base : string
}.

Definition default_config_file (env : Env) : string :=
  wd env +:+ "/config.json".

Definition __init__ (env : Env) (config_file : string) : M self :=
  content ← read_file config_file;
  config ← parse_json env content;
  api_token ← lift (Py.getitem config "api_token");
  if negb (Py.truthy api_token) then raise (Exception_ "API token is required")
  else
    zone_id ← lift (Py.getitem config "zone_id");
    if negb (Py.truthy zone_id) then raise (Exception_ "Zone ID is required")
    else
      domains ← lift (Py.getitem config "domains");
      if negb (Py.truthy domains)
      then raise (Exception_ "At least one domain is required")
      else
        mret {| api_token := api_token;
                zone_id := zone_id;
                domains := domains;
                ip_cache_file := wd env +:+ "/last_ip.txt";
                cf_api_base := "https://api.cloudflare.com/client/v4" |}.

Definition ip_services : list string :=
  [ "https://ifconfig.me/ip";
    "https://api.ipify.org";
    "https://icanhazip.com" ].

Definition ip_request (service : string) : request :=
  GET (IpService service) None (Some 10).

(** The body of the loop of [get_current_ip] for one service. *)
Definition try_service (env : Env) (service : string) : M (flow string) :=
  catch
    (response ← http env (ip_request service);
     if status_code response =? 200
     then mret (Return (PyStr.strip (text response)))
     else mret Continue)
    (fun _ => mret Continue).

Fixpoint for_services (env : Env) (services : list string) : M (option string) :=
  match services with
  | [] => mret None
  | service :: rest =>
      r ← try_service env service;
      match r with
      | Return ip => mret (Some ip)
      | Continue => for_services env rest
      end
  end.

Definition get_current_ip (env : Env) : M (option string) :=
  for_services env ip_services.

Definition get_last_known_ip (env : Env) (s : self)
    : M (option string * option timedelta) :=
  catch
    (content ← read_file (ip_cache_file s);
     match PyStr.split PyStr.comma (PyStr.strip content) with
     | [last_ip; timestamp] =>
         match fromisoformat env timestamp with
         | None => raise ValueError
         | Some last_changed =>
             t ← now env;
             match last_changed with
             | Naive d => mret (Some last_ip, Some (Datetime.sub t d))
             | Aware _ _ => raise TypeError
             end
         end
     | _ => raise ValueError
     end)
    (fun e =>
       match e with
       | FileNotFoundError _ => mret (None, None)
       | _ => raise e
       end).

Definition save_current_ip (env : Env) (s : self) (ip : string) : M unit :=
  t ← now env;
  write_file (ip_cache_file s) (ip +:+ "," +:+ isoformat t).

(** The loop that collects the identifiers of the matching records. *)
Fixpoint collect_ids (domains : json) (records : list json)
    (record_ids : list json) : result (list json) :=
  match records with
  | [] => Ok record_ids
  | record :: rest =>
      ty ← Py.getitem record "type";
      if Py.eq ty (JStr "A") then
        name ← Py.getitem record "name";
        hit ← Py.contains domains name;
        if hit : bool then
          id ← Py.getitem record "id";
          collect_ids domains rest (record_ids ++ [id])
        else collect_ids domains rest record_ids
      else collect_ids domains rest record_ids
  end.

Definition api_headers (s : self) : headers :=
  {| bearer := api_token s; content_type := "application/json" |}.

Definition list_request (s : self) : request :=
  GET (DnsRecords (cf_api_base s) (zone_id s)) (Some (api_headers s)) None.

Definition patch (new_ip : string) (record_id : json) : json :=
  JObj [("id", record_id); ("content", JStr new_ip)].

Definition batch_request (s : self) (new_ip : string) (record_ids : list json)
    : request :=
  POST (DnsRecordsBatch (cf_api_base s) (zone_id s)) (Some (api_headers s))
       (JObj [("patches", JArr (map (patch new_ip) record_ids))]).

Definition update_dns_records (env : Env) (s : self) (new_ip : string) : M bool :=
  response ← http env (list_request s);
  if negb (status_code response =? 200)
  then raise (Exception_ ("Failed to get DNS records: " +:+ text response))
  else
    body ← parse_json env (text response);
    records ← lift (Py.getitem body "result");
    items ← lift (Py.iter records);
    record_ids ← lift (collect_ids (domains s) items []);
    match record_ids with
    | [] =>
        (* the message reads [self.domain], an attribute that is never set *)
        raise (AttributeError "CloudflareDDNS" "domain")
    | _ =>
        response ← http env (batch_request s new_ip record_ids);
        if negb (status_code response =? 200)
        then raise (Exception_ ("Failed to update DNS records: " +:+ text response))
        else mret true
    end.

(** The body of the [try] of [run]. *)
Definition run_body (env : Env) (s : self) : M unit :=
  current_ip ← get_current_ip env;
  match current_ip with
  | None => raise (Exception_ "Could not determine current IP address")
  | Some ip =>
      if String.eqb ip ""
      then raise (Exception_ "Could not determine current IP address")
      else
        '(last_ip, et_last_changed) ← get_last_known_ip env s;
        if str_ne (Some ip) last_ip then
          log_change env ip last_ip et_last_changed;;
          update_dns_records env s ip;;
          save_current_ip env s ip
        else mret tt
  end.

Definition run (env : Env) (s : self) : M unit :=
  catch (run_body env s) (log_error env).

End CloudflareDDNS.

(** The entry point: [ddns = CloudflareDDNS(); ddns.run()]. *)
Definition main (env : Env) : M unit :=
  ddns ← CloudflareDDNS.__init__ env (CloudflareDDNS.default_config_file env);
  CloudflareDDNS.run env ddns.

(** The exit status of the process: 0 when the program ends normally, 1 when
    an exception reaches the top. *)
Definition exit_status {A} (r : result A) : Z :=
  match r with
  | Ok _ => 0
  | Err _ => 1
  end.

(** ** Notions used in the statements *)

(** An IP-echo service fails: its request raises, or is answered with a
    status other than 200. *)
Definition fails (env : Env) (service : string) : bool :=
  match net env (CloudflareDDNS.ip_request service) with
  | Ok r => negb (status_code r =? 200)
  | Err _ => true
  end.

(** A body that is empty or made of whitespace only. *)
Definition blank (s : string) : bool := PyStr.all_chars PyStr.is_space s.

(** A write request to the provider. *)
Definition is_write (r : request) : bool :=
  match r with
  | POST _ _ _ => true
  | GET _ _ _ => false
  end.

(** A request to the provider, as opposed to an IP-echo service. *)
Definition is_provider (r : request) : bool :=
  match r with
  | GET (IpService _) _ _ => false
  | _ => true
  end.

(** A line that reports an error. *)
Definition is_error_line (l : log_line) : bool :=
  match l with
  | ErrorLine _ _ => true
  | InfoLine _ _ _ _ => false
  end.

(** A field of the configuration is missing (or the configuration is not an
    object), or it is an empty string, list or object. *)
Definition missing_or_empty (config : json) (field : string) : Prop :=
  match Py.getitem config field with
  | Ok v => Py.empty v = true
  | Err _ => True
  end.

Definition present_nonempty (config : json) (field : string) : Prop :=
  exists v, Py.getitem config field = Ok v /\ Py.empty v = false.

(** The world after more requests were sent, more lines printed. *)
Definition sent (w : World) (rs : list request) : World :=
  {| fs := fs w; ticks := ticks w; trace := trace w ++ rs; stdout := stdout w;
     events := events w ++ map Sent rs |}.

Definition printed (w : World) (ls : list log_line) : World :=
  {| fs := fs w; ticks := ticks w; trace := trace w; stdout := stdout w ++ ls;
     events := events w ++ map Printed ls |}.

Definition ticked (w : World) (n : nat) : World :=
  {| fs := fs w; ticks := (n + ticks w)%nat; trace := trace w; stdout := stdout w;
     events := events w |}.

(** The provider answers the listing with status 200 and a body whose
    records, filtered as the program filters them, have the identifiers
    [ids]. *)
Definition lists (env : Env) (s : CloudflareDDNS.self) (ids : list json) : Prop :=
  exists r body records items,
    net env (CloudflareDDNS.list_request s) = Ok r
    /\ status_code r = 200
    /\ json_loads env (text r) = Some body
    /\ Py.getitem body "result" = Ok records
    /\ Py.iter records = Ok items
    /\ CloudflareDDNS.collect_ids (CloudflareDDNS.domains s) items [] = Ok ids.

(** The world with [content] stored in the file [path]. *)
Definition stored (w : World) (path content : string) : World :=
  {| fs := <[path := content]> (fs w); ticks := ticks w;
     trace := trace w; stdout := stdout w; events := events w |}.

(** [record] is an object whose ["id"] is [id], whose ["type"] and ["name"]
    are the strings [type] and [name]. *)
Definition describes (record : json) (d : json * string * string) : Prop :=
  Py.getitem record "type" = Ok (JStr (snd (fst d)))
  /\ Py.getitem record "name" = Ok (JStr (snd d))
  /\ Py.getitem record "id" = Ok (fst (fst d)).

(** An A record whose name is one of [domains]. *)
Definition wanted (domains : list string) (d : json * string * string) : bool :=
  String.eqb (snd (fst d)) "A"
  && existsb (fun domain => String.eqb domain (snd d)) domains.

(** An A record whose name occurs in [text]. *)
Definition wanted_in_text (text : string) (d : json * string * string) : bool :=
  String.eqb (snd (fst d)) "A" && PyStr.is_substring (snd d) text.

Fixpoint count_commas (s : string) : nat :=
  match s with
  | EmptyString => 0%nat
  | String c s' =>
      ((if Ascii.eqb c PyStr.comma then 1 else 0) + count_commas s')%nat
  end.

(** The content of a cache file that [get_last_known_ip] cannot load with
    the reader [parse]: not two fields, or a second field that is not read
    as a naive datetime. *)
Definition unreadable (parse : string -> option parsed) (content : string) : bool :=
  match PyStr.split PyStr.comma
          (PyStr.strip (PyStr.universal_newlines content)) with
  | [_; timestamp] =>
      match parse timestamp with
      | Some (Naive _) => false
      | _ => true
      end
  | _ => true
  end.

(** Successive runs of the same updater, one per environment. *)
Fixpoint runs (envs : list Env) (s : CloudflareDDNS.self) (w : World) : World :=
  match envs with
  | [] => w
  | env :: rest => runs rest s (snd (CloudflareDDNS.run env s w))
  end.

(** The line [log_change] prints: none without a previous address. *)
Definition announced (at_time : datetime) (current_ip : string)
    (last_ip : option string) (et : option timedelta) : list log_line :=
  match last_ip, et with
  | Some last, Some e =>
      if String.eqb last "" then [] else [InfoLine at_time last current_ip e]
  | _, _ => []
  end.

(** The requests sent to the first [k] IP-echo services. *)
Definition echo (k : nat) : list request :=
  map CloudflareDDNS.ip_request (take k CloudflareDDNS.ip_services).

(** The requests and the lines of a log of events. *)
Definition requests_of (es : list event) : list request :=
  flat_map (fun e => match e with Sent r => [r] | Printed _ => [] end) es.

Definition lines_of (es : list event) : list log_line :=
  flat_map (fun e => match e with Sent _ => [] | Printed l => [l] end) es.

(** [trace] and [stdout] are the two halves of [events]. *)
Definition consistent (w : World) : Prop :=
  trace w = requests_of (events w) /\ stdout w = lines_of (events w).

(** [m] keeps the three logs of the world in step. *)
Definition preserves {A} (m : M A) : Prop :=
  forall w, consistent w -> consistent (snd (m w)).

(** The characters of an ISO timestamp: digits, [:], [-], [.] and [T]. *)
Definition iso_char (c : ascii) : bool :=
  let n := Z.of_nat (nat_of_ascii c) in
  ((48 <=? n) && (n <=? 58)) || (n =? 45) || (n =? 46) || (n =? 84).

(** ** A strict reader of ISO timestamps

    [Iso.parse] reads exactly the texts that [isoformat] writes for a naive
    datetime, and the same followed by a UTC offset [+HH:MM] or [-HH:MM].
    It is the parser of the concrete environments below. *)
Module Iso.

Definition digit_val (c : ascii) : option Z :=
  let n := Z.of_nat (nat_of_ascii c) in
  if (48 <=? n) && (n <=? 57) then Some (n - 48) else None.

(** Reads exactly [w] decimal digits. *)
Fixpoint number (w : nat) (acc : Z) (s : string) : option (Z * string) :=
  match w with
  | O => Some (acc, s)
  | S w' =>
      match s with
      | String c s' =>
          match digit_val c with
          | Some d => number w' (acc * 10 + d) s'
          | None => None
          end
      | EmptyString => None
      end
  end.

Definition expect (c : ascii) (s : string) : option string :=
  match s with
  | String c' s' => if Ascii.eqb c c' then Some s' else None
  | EmptyString => None
  end.

Definition fraction (s : string) : option (Z * string) :=
  match s with
  | String "."%char s' => number 6 0 s'
  | _ => Some (0, s)
  end.

Definition offset (s : string) : option (option timedelta) :=
  match s with
  | EmptyString => Some None
  | String sign s' =>
      sgn ← (if Ascii.eqb sign "+"%char then Some 1
             else if Ascii.eqb sign "-"%char then Some (-1) else None);
      '(h, s1) ← number 2 0 s';
      s2 ← expect ":"%char s1;
      '(m, s3) ← number 2 0 s2;
      match s3 with
      | EmptyString => Some (Some (timedelta_of 0 (sgn * (h * 3600 + m * 60)) 0))
      | _ => None
      end
  end.

Definition parse (s : string) : option parsed :=
  '(y, s) ← number 4 0 s;
  s ← expect "-"%char s;
  '(mo, s) ← number 2 0 s;
  s ← expect "-"%char s;
  '(d, s) ← number 2 0 s;
  s ← expect "T"%char s;
  '(h, s) ← number 2 0 s;
  s ← expect ":"%char s;
  '(mi, s) ← number 2 0 s;
  s ← expect ":"%char s;
  '(sec, s) ← number 2 0 s;
  '(us, s) ← fraction s;
  off ← offset s;
  let dt := mk_datetime y mo d h mi sec us in
  if Datetime.valid dt
  then Some (match off with None => Naive dt | Some o => Aware dt o end)
  else None.

End Iso.

(** ** JSON texts

    [Json.dumps] writes a value as JSON text (strings without escapes);
    [Json.loads_among known] reads back the texts of the values in [known]
    and rejects every other text.  It is the JSON parser of the concrete
    environments below. *)
Module Json.

Definition quote : string := String (ascii_of_nat 34) EmptyString.

Fixpoint digits (fuel : nat) (n : Z) (acc : string) : string :=
  match fuel with
  | O => acc
  | S fuel' =>
      let acc' := String (Datetime.digit n) acc in
      if n / 10 =? 0 then acc' else digits fuel' (n / 10) acc'
  end.

Definition int_text (z : Z) : string :=
  if z <? 0 then "-" +:+ digits (S (Z.to_nat (- z))) (- z) ""
  else digits (S (Z.to_nat z)) z "".

Fixpoint dumps (v : json) : string :=
  match v with
  | JNull => "null"
  | JBool b => if b then "true" else "false"
  | JInt z => int_text z
  | JStr s => quote +:+ s +:+ quote
  | JArr l =>
      "[" +:+
      (fix items (l : list json) : string :=
         match l with
         | [] => ""
         | x :: l' =>
             dumps x +:+ match l' with [] => "" | _ => ", " +:+ items l' end
         end) l
      +:+ "]"
  | JObj l =>
      "{" +:+
      (fix members (l : list (string * json)) : string :=
         match l with
         | [] => ""
         | (k, x) :: l' =>
             quote +:+ k +:+ quote +:+ ": " +:+ dumps x
             +:+ match l' with [] => "" | _ => ", " +:+ members l' end
         end) l
      +:+ "}"
  end.

Definition loads_among (known : list json) (s : string) : option json :=
  List.find (fun v => String.eqb (dumps v) s) known.

End Json.

(** ** Concrete environments *)
Module Scenario.

Definition dir : string := "/opt/cfddns".

(** A clock that advances by one second per reading. *)
Definition tick_clock (n : nat) : datetime :=
  mk_datetime 2024 1 1 12 0 (Z.of_nat n) 0.

Definition answer_of (echo : list (string * result response)) (a : string)
    : result response :=
  match Py.assoc a echo with
  | Some r => r
  | None => Err (RequestException "no route to host")
  end.

(** A network: what each IP-echo service answers, what the provider
    answers to the listing and to the batch update. *)
Definition network (echo : list (string * result response))
    (listing batch : result response) (r : request) : result response :=
  match r with
  | GET (IpService a) _ _ => answer_of echo a
  | GET _ _ _ => listing
  | POST _ _ _ => batch
  end.

Definition config : json :=
  JObj [ ("api_token", JStr "t0k3n");
         ("zone_id", JStr "z0ne");
         ("domains", JArr [JStr "home.example.com"; JStr "vpn.example.com"]) ].

(** A configuration without its [zone_id]. *)
Definition config_no_zone : json :=
  JObj [ ("api_token", JStr "t0k3n");
         ("domains", JArr [JStr "home.example.com"]) ].

(** A configuration with an empty list of domains. *)
Definition config_no_domain : json :=
  JObj [ ("api_token", JStr "t0k3n");
         ("zone_id", JStr "z0ne");
         ("domains", JArr []) ].

Definition record (id type name content : string) : json :=
  JObj [ ("id", JStr id); ("type", JStr type);
         ("name", JStr name); ("content", JStr content) ].

(** A zone with two matching A records among four records. *)
Definition zone : json :=
  JObj [ ("result",
          JArr [ record "r1" "A" "home.example.com" "198.51.100.7";
                 record "r2" "AAAA" "home.example.com" "2001:db8::7";
                 record "r3" "A" "www.example.com" "198.51.100.8";
                 record "r4" "A" "vpn.example.com" "198.51.100.7" ]);
         ("success", JBool true) ].

(** A zone where the configured domains have no A record. *)
Definition zone_without_match : json :=
  JObj [ ("result",
          JArr [ record "r2" "AAAA" "home.example.com" "2001:db8::7";
                 record "r3" "A" "www.example.com" "198.51.100.8" ]);
         ("success", JBool true) ].

Definition known : list json :=
  [config; config_no_zone; config_no_domain; zone; zone_without_match].

Definition env_of (echo : list (string * result response))
    (listing batch : result response) : Env :=
  {| wd := dir;
     net := network echo listing batch;
     clock := tick_clock;
     json_loads := Json.loads_among known;
     fromisoformat := Iso.parse |}.

Definition ok (body : string) : result response := Ok (mk_response 200 body).
Definition status (code : Z) (body : string) : result response :=
  Ok (mk_response code body).
Definition newline : string := String (ascii_of_nat 10) EmptyString.

Definition me : CloudflareDDNS.self :=
  {| CloudflareDDNS.api_token := JStr "t0k3n";
     CloudflareDDNS.zone_id := JStr "z0ne";
     CloudflareDDNS.domains := JArr [JStr "home.example.com"; JStr "vpn.example.com"];
     CloudflareDDNS.ip_cache_file := "/opt/cfddns/last_ip.txt";
     CloudflareDDNS.cf_api_base := "https://api.cloudflare.com/client/v4" |}.

(** The first two services fail, the third answers. *)
Definition echo_third : list (string * result response) :=
  [ ("https://ifconfig.me/ip", Err (RequestException "timed out"));
    ("https://api.ipify.org", status 503 "Service Unavailable");
    ("https://icanhazip.com", ok ("203.0.113.5" +:+ newline)) ].

(** The first service answers at once. *)
Definition echo_first : list (string * result response) :=
  [ ("https://ifconfig.me/ip", ok "203.0.113.5");
    ("https://api.ipify.org", ok "203.0.113.5");
    ("https://icanhazip.com", ok ("203.0.113.5" +:+ newline)) ].

(** The first service answers with a blank body, the others with an
    address. *)
Definition echo_blank : list (string * result response) :=
  [ ("https://ifconfig.me/ip", ok (" " +:+ newline));
    ("https://api.ipify.org", ok "203.0.113.5");
    ("https://icanhazip.com", ok "203.0.113.5") ].

Definition files (l : list (string * string)) : gmap string string :=
  list_to_map l.

Definition world_of (l : list (string * string)) : World :=
  {| fs := files l; ticks := 0; trace := []; stdout := []; events := [] |}.

Definition cache : string := "/opt/cfddns/last_ip.txt".
Definition config_file : string := "/opt/cfddns/config.json".

End Scenario.

(** ** More concrete environments *)
Module Cases.

(** A record without its ["type"]. *)
Definition typeless : json :=
  JObj [ ("id", JStr "r9"); ("name", JStr "vpn.example.com") ].

(** A zone whose second record has no ["type"]. *)
Definition zone_broken : json :=
  JObj [ ("result",
          JArr [ Scenario.record "r1" "A" "home.example.com" "198.51.100.7";
                 typeless;
                 Scenario.record "r4" "A" "vpn.example.com" "198.51.100.7" ]) ].

Definition env_broken : Env :=
  {| wd := Scenario.dir;
     net := Scenario.network Scenario.echo_first
              (Scenario.ok (Json.dumps zone_broken)) (Scenario.ok "{}");
     clock := Scenario.tick_clock;
     json_loads := Json.loads_among [zone_broken];
     fromisoformat := Iso.parse |}.

(** A service that answers with two addresses. *)
(** A body with whitespace on both sides of the address: a space and a
    tab before it, a carriage return and a line feed after it. *)
Definition padded : string :=
  String " " (String (ascii_of_nat 9)
    ("203.0.113.5" +:+ String PyStr.CR (String PyStr.LF ""))).

(** The third service answers with the padded body. *)
Definition echo_padded : list (string * result response) :=
  [ ("https://ifconfig.me/ip", Err (RequestException "timed out"));
    ("https://api.ipify.org", Scenario.status 503 "Service Unavailable");
    ("https://icanhazip.com", Scenario.ok padded) ].

Definition echo_two : list (string * result response) :=
  [ ("https://ifconfig.me/ip", Scenario.ok "203.0.113.5, 198.51.100.1") ].

(** A configuration whose [zone_id] is the number 0. *)
Definition config_zero_zone : json :=
  JObj [ ("api_token", JStr "t0k3n");
         ("zone_id", JInt 0);
         ("domains", JArr [JStr "home.example.com"]) ].

Definition env_config : Env :=
  {| wd := Scenario.dir;
     net := Scenario.network Scenario.echo_first
              (Scenario.ok (Json.dumps Scenario.zone)) (Scenario.ok "{}");
     clock := Scenario.tick_clock;
     json_loads :=
       Json.loads_among [Scenario.config; config_zero_zone; Scenario.zone];
     fromisoformat := Iso.parse |}.

End Cases.

(** * Properties *)

Import CloudflareDDNS.
Import Scenario.

(** ** The monad *)

Lemma bind_ok {A B} (m : M A) (k : A -> M B) w a w' :
  m w = (Ok a, w') -> (m ≫= k) w = k a w'.
Proof. intros H. unfold mbind, M_bind. now rewrite H. Qed.

Lemma bind_err {A B} (m : M A) (k : A -> M B) w e w' :
  m w = (Err e, w') -> (m ≫= k) w = (Err e, w').
Proof. intros H. unfold mbind, M_bind. now rewrite H. Qed.

Lemma catch_ok {A} (m : M A) h w a w' :
  m w = (Ok a, w') -> catch m h w = (Ok a, w').
Proof. intros H. unfold catch. now rewrite H. Qed.

Lemma catch_err {A} (m : M A) h w e w' :
  m w = (Err e, w') -> catch m h w = h e w'.
Proof. intros H. unfold catch. now rewrite H. Qed.

Lemma sent_nil w : sent w [] = w.
Proof. destruct w. unfold sent. simpl. now rewrite !app_nil_r. Qed.

Lemma sent_sent w rs rs' : sent (sent w rs) rs' = sent w (rs ++ rs').
Proof. unfold sent. simpl. now rewrite map_app, !app_assoc. Qed.

Ltac mstep :=
  unfold parse_json, get_now_str in *;
  unfold mbind, M_bind, mret, M_ret, raise, catch, lift, http, print, now,
    read_file, write_file in *.

(** Closes an equation between two worlds written out field by field. *)
Ltac wdone :=
  unfold sent, printed, ticked;
  cbn beta iota zeta delta [trace fs ticks stdout events fst snd negb map];
  rewrite <- ?app_assoc; reflexivity.

(** ** Detection *)

Lemma try_service_spec env service w :
  try_service env service w
  = (Ok (match net env (ip_request service) with
         | Ok r => if status_code r =? 200
                   then Return (PyStr.strip (text r)) else Continue
         | Err _ => Continue
         end),
     sent w [ip_request service]).
Proof.
  unfold try_service. mstep. unfold sent.
  destruct (net env (ip_request service)) as [r|e]; [|reflexivity].
  now destruct (status_code r =? 200).
Qed.

Lemma try_service_fails env service w :
  fails env service = true ->
  try_service env service w = (Ok Continue, sent w [ip_request service]).
Proof.
  intros H. rewrite try_service_spec. unfold fails in H.
  destruct (net env (ip_request service)) as [r|e]; [|reflexivity].
  now destruct (status_code r =? 200).
Qed.

Lemma for_services_found env l : forall i service body w,
  l !! i = Some service ->
  net env (ip_request service) = Ok (mk_response 200 body) ->
  (forall j s, (j < i)%nat -> l !! j = Some s -> fails env s = true) ->
  for_services env l w
  = (Ok (Some (PyStr.strip body)), sent w (map ip_request (take (S i) l))).
Proof.
  induction l as [|x l IH]; intros i service body w Hi Hnet Hbefore.
  - discriminate.
  - destruct i as [|i]; simpl in Hi.
    + injection Hi as ->. simpl for_services.
      erewrite bind_ok by apply try_service_spec.
      rewrite Hnet. reflexivity.
    + simpl for_services.
      erewrite bind_ok
        by (apply try_service_fails, (Hbefore 0%nat); [lia | reflexivity]).
      rewrite (IH i service body); try assumption.
      * now rewrite sent_sent.
      * intros j s Hj Hs. apply (Hbefore (S j)); [lia | exact Hs].
Qed.

Lemma for_services_none env l : forall w,
  (forall s, s ∈ l -> fails env s = true) ->
  for_services env l w = (Ok None, sent w (map ip_request l)).
Proof.
  induction l as [|x l IH]; intros w Hall; simpl.
  - unfold mret, M_ret. now rewrite sent_nil.
  - erewrite bind_ok by (apply try_service_fails, Hall; left).
    rewrite IH by (intros s Hs; apply Hall; now right).
    now rewrite sent_sent.
Qed.

Lemma for_services_total env l : forall w,
  is_ok (fst (for_services env l w)) = true.
Proof.
  induction l as [|x l IH]; intros w; simpl; [reflexivity|].
  erewrite bind_ok by apply try_service_spec.
  destruct (net env (ip_request x)) as [r|e]; [|apply IH].
  destruct (status_code r =? 200); [reflexivity | apply IH].
Qed.

Lemma get_current_ip_found env w i service body :
  ip_services !! i = Some service ->
  net env (ip_request service) = Ok (mk_response 200 body) ->
  (forall j s, (j < i)%nat -> ip_services !! j = Some s -> fails env s = true) ->
  get_current_ip env w
  = (Ok (Some (PyStr.strip body)),
     sent w (map ip_request (take (S i) ip_services))).
Proof. unfold get_current_ip. apply for_services_found. Qed.

Lemma get_current_ip_none env w :
  (forall s, s ∈ ip_services -> fails env s = true) ->
  get_current_ip env w = (Ok None, sent w (map ip_request ip_services)).
Proof. unfold get_current_ip. apply for_services_none. Qed.

(** ** What stripping does *)

Lemma append_nil (b : string) : "" +:+ b = b.
Proof. reflexivity. Qed.

Lemma append_cons x (a b : string) : String x a +:+ b = String x (a +:+ b).
Proof. reflexivity. Qed.

Lemma append_assoc (a b c : string) : (a +:+ b) +:+ c = a +:+ b +:+ c.
Proof.
  induction a as [|x a IH]; [reflexivity|].
  rewrite !append_cons. now rewrite IH.
Qed.

Lemma lstrip_no_lead s : PyStr.no_leading_space (PyStr.lstrip s) = true.
Proof.
  induction s as [|c s IH]; [reflexivity|].
  cbn [PyStr.lstrip]. destruct (PyStr.is_space c) eqn:Hc; [exact IH|].
  cbn. now rewrite Hc.
Qed.

Lemma rstrip_no_lead s :
  PyStr.no_leading_space s = true ->
  PyStr.no_leading_space (PyStr.rstrip s) = true.
Proof.
  destruct s as [|c s]; [reflexivity|]. cbn [PyStr.no_leading_space].
  intros Hc. cbn [PyStr.rstrip].
  destruct (PyStr.rstrip s) as [|c' r].
  - apply negb_true_iff in Hc. rewrite Hc. cbn. now rewrite Hc.
  - exact Hc.
Qed.

Lemma rstrip_solid s :
  PyStr.rstrip s = "" \/ PyStr.ends_solid (PyStr.rstrip s) = true.
Proof.
  induction s as [|c s IH]; [now left|].
  cbn [PyStr.rstrip]. destruct (PyStr.rstrip s) as [|c' r].
  - destruct (PyStr.is_space c) eqn:Hc; [now left|].
    right. cbn. now rewrite Hc.
  - right. destruct IH as [IH|IH]; [discriminate IH | exact IH].
Qed.

Lemma lstrip_split s :
  exists pre, s = pre +:+ PyStr.lstrip s /\ blank pre = true.
Proof.
  induction s as [|c s (pre & E & Hpre)].
  - now exists "".
  - cbn [PyStr.lstrip]. destruct (PyStr.is_space c) eqn:Hc.
    + exists (String c pre). rewrite append_cons, <- E. split; [reflexivity|].
      unfold blank. cbn [PyStr.all_chars]. now rewrite Hc.
    + now exists "".
Qed.

Lemma rstrip_split s :
  exists post, s = PyStr.rstrip s +:+ post /\ blank post = true.
Proof.
  induction s as [|c s (post & E & Hpost)].
  - now exists "".
  - cbn [PyStr.rstrip]. destruct (PyStr.rstrip s) as [|c' r].
    + rewrite append_nil in E. subst post.
      destruct (PyStr.is_space c) eqn:Hc.
      * exists (String c s). rewrite append_nil. split; [reflexivity|].
        unfold blank. cbn [PyStr.all_chars]. now rewrite Hc.
      * exists s. rewrite append_cons, append_nil. now split.
    + exists post. rewrite append_cons, <- E. now split.
Qed.

(** [s.strip()] is [s] without the whitespace characters at its two ends:
    [s] is the stripped string between two runs of whitespace, and the
    stripped string neither begins nor ends with a whitespace character. *)
Lemma strip_split s :
  exists pre post,
    s = pre +:+ PyStr.strip s +:+ post
    /\ blank pre = true /\ blank post = true
    /\ PyStr.no_leading_space (PyStr.strip s) = true
    /\ (PyStr.strip s = "" \/ PyStr.ends_solid (PyStr.strip s) = true).
Proof.
  destruct (lstrip_split s) as (pre & E1 & Hpre).
  destruct (rstrip_split (PyStr.lstrip s)) as (post & E2 & Hpost).
  exists pre, post. unfold PyStr.strip. rewrite <- E2.
  repeat split; try assumption.
  - apply rstrip_no_lead, lstrip_no_lead.
  - apply rstrip_solid.
Qed.

(** C5. [get_current_ip] asks the services of its fixed list in order.  When
    service number [i] is the first that answers with status 200, the
    result is its body trimmed of surrounding whitespace, and exactly the
    services up to it were asked: the body is the result between a run of
    whitespace characters before it and one after it, and the result
    neither begins nor ends with a whitespace character.  When every
    service fails (raises, or answers with another status), the result is
    [None] after all were asked.  No failure of a service is raised to the
    caller. *)
Theorem get_current_ip_first_success env w :
  (forall i service body,
     ip_services !! i = Some service ->
     net env (ip_request service) = Ok (mk_response 200 body) ->
     (forall j s, (j < i)%nat -> ip_services !! j = Some s -> fails env s = true) ->
     exists ip pre post,
       get_current_ip env w
       = (Ok (Some ip), sent w (map ip_request (take (S i) ip_services)))
       /\ ip = PyStr.strip body
       /\ body = pre +:+ ip +:+ post
       /\ blank pre = true
       /\ blank post = true
       /\ PyStr.no_leading_space ip = true
       /\ (ip = "" \/ PyStr.ends_solid ip = true))
  /\ ((forall s, s ∈ ip_services -> fails env s = true) ->
      get_current_ip env w = (Ok None, sent w (map ip_request ip_services)))
  /\ is_ok (fst (get_current_ip env w)) = true.
Proof.
  split; [|split].
  - intros i service body Hi Hnet Hbefore.
    destruct (strip_split body) as (pre & post & E & Hpre & Hpost & Hlead & Hend).
    exists (PyStr.strip body), pre, post.
    split; [now apply (get_current_ip_found env w i service)|].
    repeat split; assumption.
  - apply get_current_ip_none.
  - unfold get_current_ip. apply for_services_total.
Qed.

Lemma get_current_ip_first_success_witness :
  (exists pre post,
     get_current_ip (env_of Cases.echo_padded (ok "") (ok "")) (world_of [])
     = (Ok (Some "203.0.113.5"),
        sent (world_of []) (map ip_request ip_services))
     /\ Cases.padded = pre +:+ "203.0.113.5" +:+ post
     /\ blank pre = true /\ blank post = true)
  /\ get_current_ip (env_of [] (ok "") (ok "")) (world_of [])
     = (Ok None, sent (world_of []) (map ip_request ip_services)).
Proof.
  split.
  - destruct (proj1 (get_current_ip_first_success
                       (env_of Cases.echo_padded (ok "") (ok "")) (world_of []))
                2%nat "https://icanhazip.com" Cases.padded)
      as (ip & pre & post & Hget & Hip & Hbody & Hpre & Hpost & _).
    + reflexivity.
    + reflexivity.
    + intros j s Hj Hs. destruct j as [|[|j]].
      * injection Hs as <-. reflexivity.
      * injection Hs as <-. reflexivity.
      * lia.
    + exists pre, post. subst ip. repeat split; assumption.
  - apply (proj1 (proj2 (get_current_ip_first_success
                           (env_of [] (ok "") (ok "")) (world_of [])))).
    intros s Hs. reflexivity.
Defined.

(** ** Strings *)

Lemma lstrip_blank s : blank s = true -> PyStr.lstrip s = "".
Proof.
  induction s as [|c s IH]; simpl; [reflexivity|].
  intros H. apply andb_prop in H as [Hc Hs]. rewrite Hc. now apply IH.
Qed.

Lemma strip_blank s : blank s = true -> PyStr.strip s = "".
Proof. intros H. unfold PyStr.strip. now rewrite lstrip_blank. Qed.

(** ** The top level of [run] *)

Lemma run_of_ok env s w w' :
  run_body env s w = (Ok tt, w') -> run env s w = (Ok tt, w').
Proof. intros H. unfold run. now apply catch_ok. Qed.

Lemma run_of_err env s w e w' :
  run_body env s w = (Err e, w') ->
  run env s w
  = (Ok tt, printed (ticked w' 1) [ErrorLine (clock env (ticks w')) e]).
Proof. intros H. unfold run. erewrite catch_err by exact H. reflexivity. Qed.

Lemma run_body_undetected env s w w' :
  get_current_ip env w = (Ok None, w') \/ get_current_ip env w = (Ok (Some ""), w') ->
  run_body env s w
  = (Err (Exception_ "Could not determine current IP address"), w').
Proof.
  intros [H|H]; unfold run_body; erewrite bind_ok by exact H; reflexivity.
Qed.

Lemma echo_not_provider l : filter is_provider (map ip_request l) = [].
Proof. induction l as [|x l IH]; [reflexivity | exact IH]. Qed.

(** C10. When the first service that answers with status 200 has an empty
    or whitespace-only body, detection returns the empty string, whatever
    the later services would answer; [run] then raises and logs the error
    of a failed detection, sends no request to the provider and writes no
    file.  A detection in which every service fails ends in the same
    error. *)
Theorem blank_answer_is_detection_failure env s w i service body :
  ip_services !! i = Some service ->
  net env (ip_request service) = Ok (mk_response 200 body) ->
  blank body = true ->
  (forall j s', (j < i)%nat -> ip_services !! j = Some s' -> fails env s' = true) ->
  let undetermined := Exception_ "Could not determine current IP address" in
  let w' := snd (run env s w) in
  fst (get_current_ip env w) = Ok (Some "")
  /\ fst (run_body env s w) = Err undetermined
  /\ fst (run env s w) = Ok tt
  /\ stdout w' = stdout w ++ [ErrorLine (clock env (ticks w)) undetermined]
  /\ trace w' = trace w ++ map ip_request (take (S i) ip_services)
  /\ filter is_provider (trace w') = filter is_provider (trace w)
  /\ fs w' = fs w
  /\ (forall env0 w0,
        (forall s', s' ∈ ip_services -> fails env0 s' = true) ->
        fst (run_body env0 s w0) = Err undetermined).
Proof.
  intros Hi Hnet Hblank Hbefore undetermined w'.
  pose proof (get_current_ip_found env w i service body Hi Hnet Hbefore)
    as Hget.
  rewrite (strip_blank _ Hblank) in Hget.
  assert (Hbody := run_body_undetected env s w _ (or_intror Hget)).
  assert (Hrun := run_of_err env s w _ _ Hbody).
  subst w'. rewrite Hget, Hbody, Hrun.
  cbn [fst snd stdout trace fs ticks printed ticked sent].
  repeat split.
  - now rewrite filter_app, echo_not_provider, app_nil_r.
  - intros env0 w0 Hall.
    pose proof (get_current_ip_none env0 w0 Hall) as Hnone.
    now rewrite (run_body_undetected env0 s w0 _ (or_introl Hnone)).
Qed.

Lemma blank_answer_is_detection_failure_witness :
  let env := env_of echo_blank (ok (Json.dumps zone)) (ok "") in
  let w := world_of [] in
  fst (get_current_ip env w) = Ok (Some "")
  /\ stdout (snd (run env me w))
     = [ErrorLine (tick_clock 0)
          (Exception_ "Could not determine current IP address")]
  /\ trace (snd (run env me w)) = [ip_request "https://ifconfig.me/ip"]
  /\ fs (snd (run env me w)) = fs w.
Proof.
  intros env w.
  destruct (blank_answer_is_detection_failure env me w 0%nat
              "https://ifconfig.me/ip" (" " +:+ newline))
    as (H1 & _ & _ & H4 & H5 & _ & H7 & _).
  - reflexivity.
  - reflexivity.
  - reflexivity.
  - intros j s' Hj. lia.
  - repeat split; assumption.
Defined.

(** ** The cache file *)

Lemma get_last_known_ip_spec env s w :
  get_last_known_ip env s w
  = match fs w !! ip_cache_file s with
    | None => (Ok (None, None), w)
    | Some content =>
        match PyStr.split PyStr.comma
                (PyStr.strip (PyStr.universal_newlines content)) with
        | [last_ip; timestamp] =>
            match fromisoformat env timestamp with
            | None => (Err ValueError, w)
            | Some (Naive d) =>
                (Ok (Some last_ip, Some (Datetime.sub (clock env (ticks w)) d)),
                 ticked w 1)
            | Some (Aware _ _) => (Err TypeError, ticked w 1)
            end
        | _ => (Err ValueError, w)
        end
    end.
Proof.
  unfold get_last_known_ip. mstep.
  destruct (fs w !! ip_cache_file s) as [content|]; [|reflexivity].
  destruct (PyStr.split PyStr.comma
              (PyStr.strip (PyStr.universal_newlines content)))
    as [|a [|b [|c l]]];
    try reflexivity.
  destruct (fromisoformat env b) as [[d|d o]|]; reflexivity.
Qed.

(** C8. [get_last_known_ip] returns [(None, None)] exactly when the cache
    file does not exist.  When the file exists and its stripped content does
    not split into two fields, or its second field is not a timestamp that
    [fromisoformat] reads, the [ValueError] of the parse leaves the
    function; it is not turned into the result of a missing file. *)
Theorem get_last_known_ip_absent_iff_missing env s w :
  (fst (get_last_known_ip env s w) = Ok (None, None)
   <-> fs w !! ip_cache_file s = None)
  /\ (forall content,
        fs w !! ip_cache_file s = Some content ->
        let fields :=
          PyStr.split PyStr.comma
            (PyStr.strip (PyStr.universal_newlines content)) in
        (length fields <> 2%nat ->
         get_last_known_ip env s w = (Err ValueError, w))
        /\ (forall last_ip timestamp,
              fields = [last_ip; timestamp] ->
              fromisoformat env timestamp = None ->
              get_last_known_ip env s w = (Err ValueError, w))).
Proof.
  rewrite get_last_known_ip_spec. split.
  - destruct (fs w !! ip_cache_file s) as [content|]; [|tauto].
    split; [|discriminate].
    destruct (PyStr.split PyStr.comma
                (PyStr.strip (PyStr.universal_newlines content)))
      as [|a [|b [|c l]]];
      try discriminate.
    destruct (fromisoformat env b) as [[d|d o]|]; discriminate.
  - intros content ->. cbv zeta. split.
    + intros Hlen.
      destruct (PyStr.split PyStr.comma
                  (PyStr.strip (PyStr.universal_newlines content)))
        as [|a [|b [|c l]]];
        try reflexivity.
      now contradiction Hlen.
    + intros last_ip timestamp -> ->. reflexivity.
Qed.

Lemma get_last_known_ip_absent_iff_missing_witness :
  let env := env_of echo_first (ok "") (ok "") in
  fst (get_last_known_ip env me (world_of [])) = Ok (None, None)
  /\ fst (get_last_known_ip env me (world_of [(cache, "203.0.113.5")]))
     = Err ValueError
  /\ fst (get_last_known_ip env me (world_of [(cache, "203.0.113.5,yesterday")]))
     = Err ValueError.
Proof.
  intros env. split; [|split].
  - apply (proj1 (get_last_known_ip_absent_iff_missing env me (world_of []))).
    reflexivity.
  - pose (w := world_of [(cache, "203.0.113.5")]).
    destruct (proj2 (get_last_known_ip_absent_iff_missing env me w)
                "203.0.113.5" eq_refl) as [H _].
    change (fst (get_last_known_ip env me w) = Err ValueError).
    rewrite H; [reflexivity|]. simpl. lia.
  - pose (w := world_of [(cache, "203.0.113.5,yesterday")]).
    destruct (proj2 (get_last_known_ip_absent_iff_missing env me w)
                "203.0.113.5,yesterday" eq_refl) as [_ H].
    change (fst (get_last_known_ip env me w) = Err ValueError).
    rewrite (H "203.0.113.5" "yesterday"); reflexivity.
Defined.

(** ** Strings written to and read from the cache file *)

Lemma all_chars_app p a b :
  PyStr.all_chars p (a +:+ b) = PyStr.all_chars p a && PyStr.all_chars p b.
Proof.
  induction a as [|c a IH]; simpl; [reflexivity|].
  now rewrite IH, andb_assoc.
Qed.

Lemma all_chars_impl (p q : ascii -> bool) s :
  (forall c, p c = true -> q c = true) ->
  PyStr.all_chars p s = true -> PyStr.all_chars q s = true.
Proof.
  intros Hpq. induction s as [|c s IH]; simpl; [reflexivity|].
  intros H. apply andb_prop in H as [Hc Hs].
  now rewrite (Hpq _ Hc), IH.
Qed.

Lemma lstrip_no_leading_space s :
  PyStr.no_leading_space s = true -> PyStr.lstrip s = s.
Proof.
  destruct s as [|c s]; simpl; [reflexivity|].
  intros H. apply negb_true_iff in H. now rewrite H.
Qed.

Lemma rstrip_ends_solid s : PyStr.ends_solid s = true -> PyStr.rstrip s = s.
Proof.
  induction s as [|c s IH]; [discriminate|].
  destruct s as [|c' s].
  - simpl. intros H. apply negb_true_iff in H. now rewrite H.
  - intros H. change (PyStr.ends_solid (String c' s) = true) in H.
    specialize (IH H). change (PyStr.rstrip (String c (String c' s)))
      with (match PyStr.rstrip (String c' s) with
            | EmptyString =>
                if PyStr.is_space c then EmptyString else String c EmptyString
            | r => String c r
            end).
    now rewrite IH.
Qed.

Lemma ends_solid_app a b :
  PyStr.ends_solid b = true -> PyStr.ends_solid (a +:+ b) = true.
Proof.
  intros Hb. induction a as [|c a IH]; [exact Hb|].
  simpl. destruct (a +:+ b) eqn:E; [|exact IH].
  destruct a as [|c' a]; [|discriminate].
  change (b = "") in E. subst b. discriminate.
Qed.

Lemma ends_solid_all s :
  PyStr.all_chars (fun c => negb (PyStr.is_space c)) s = true ->
  s <> "" -> PyStr.ends_solid s = true.
Proof.
  induction s as [|c s IH]; [congruence|].
  simpl. intros H _. apply andb_prop in H as [Hc Hs].
  destruct s as [|c' s]; [exact Hc|].
  apply IH; [exact Hs | discriminate].
Qed.

Lemma split_comma_free s :
  PyStr.comma_free s = true -> PyStr.split PyStr.comma s = [s].
Proof.
  induction s as [|c s IH]; simpl; [reflexivity|].
  intros H. apply andb_prop in H as [Hc Hs].
  apply negb_true_iff in Hc. rewrite Hc. now rewrite (IH Hs).
Qed.

Lemma split_at_comma a b :
  PyStr.comma_free a = true ->
  PyStr.split PyStr.comma (a +:+ "," +:+ b) = a :: PyStr.split PyStr.comma b.
Proof.
  induction a as [|c a IH]; simpl; [reflexivity|].
  intros H. apply andb_prop in H as [Hc Ha].
  apply negb_true_iff in Hc. rewrite Hc. now rewrite (IH Ha).
Qed.

Lemma no_leading_space_app a b :
  PyStr.no_leading_space a = true ->
  PyStr.no_leading_space (a +:+ "," +:+ b) = true.
Proof. destruct a; [reflexivity | exact id]. Qed.

(** The record written by [save_current_ip] is read back as its two
    fields. *)
Lemma record_fields ip stamp :
  PyStr.comma_free ip = true ->
  PyStr.no_leading_space ip = true ->
  PyStr.comma_free stamp = true ->
  PyStr.ends_solid stamp = true ->
  PyStr.split PyStr.comma (PyStr.strip (ip +:+ "," +:+ stamp)) = [ip; stamp].
Proof.
  intros Hip Hlead Hstamp Hend. unfold PyStr.strip.
  rewrite lstrip_no_leading_space by now apply no_leading_space_app.
  rewrite rstrip_ends_solid
    by (apply ends_solid_app; exact (ends_solid_app "," stamp Hend)).
  rewrite split_at_comma by exact Hip.
  now rewrite split_comma_free.
Qed.

(** ** Timestamps *)

Lemma digit_iso_char n : iso_char (digit n) = true.
Proof.
  unfold digit.
  assert (H : (Z.to_nat (n mod 10) < 10)%nat)
    by (pose proof (Z.mod_pos_bound n 10); lia).
  revert H. generalize (Z.to_nat (n mod 10)). intros k Hk.
  do 10 (destruct k as [|k]; [reflexivity|]). lia.
Qed.

Lemma pad_iso_chars w : forall n, PyStr.all_chars iso_char (pad w n) = true.
Proof.
  induction w as [|w IH]; intros n; [reflexivity|].
  cbn [pad]. rewrite all_chars_app, IH.
  cbn [PyStr.all_chars andb]. now rewrite digit_iso_char.
Qed.

Lemma isoformat_iso_chars d : PyStr.all_chars iso_char (isoformat d) = true.
Proof.
  unfold isoformat.
  destruct (microsecond d =? 0);
    rewrite !all_chars_app, !pad_iso_chars; reflexivity.
Qed.

Lemma iso_char_not_comma c :
  iso_char c = true -> negb (Ascii.eqb c PyStr.comma) = true.
Proof.
  destruct c as [[] [] [] [] [] [] [] []]; intros H;
    first [reflexivity | discriminate H].
Qed.

Lemma iso_char_not_space c :
  iso_char c = true -> negb (PyStr.is_space c) = true.
Proof.
  destruct c as [[] [] [] [] [] [] [] []]; intros H;
    first [reflexivity | discriminate H].
Qed.

Lemma isoformat_comma_free d : PyStr.comma_free (isoformat d) = true.
Proof.
  apply (all_chars_impl iso_char); [apply iso_char_not_comma|].
  apply isoformat_iso_chars.
Qed.

Lemma isoformat_ends_solid d : PyStr.ends_solid (isoformat d) = true.
Proof.
  apply ends_solid_all.
  - apply (all_chars_impl iso_char); [apply iso_char_not_space|].
    apply isoformat_iso_chars.
  - unfold isoformat. destruct (pad 4 (year d)); discriminate.
Qed.

(** ** Text read back from a file *)

Lemma universal_newlines_cr_free s :
  PyStr.cr_free s = true -> PyStr.universal_newlines s = s.
Proof.
  unfold PyStr.universal_newlines, PyStr.cr_free.
  induction s as [|c s IH]; [reflexivity|].
  cbn [PyStr.all_chars PyStr.translate]. intros H.
  apply andb_prop in H as [Hc Hs]. apply negb_true_iff in Hc.
  rewrite Hc, andb_false_r, IH by exact Hs. reflexivity.
Qed.

Lemma iso_char_not_cr c :
  iso_char c = true -> negb (Ascii.eqb c PyStr.CR) = true.
Proof.
  destruct c as [[] [] [] [] [] [] [] []]; intros H;
    first [reflexivity | discriminate H].
Qed.

Lemma isoformat_cr_free d : PyStr.cr_free (isoformat d) = true.
Proof.
  apply (all_chars_impl iso_char); [apply iso_char_not_cr|].
  apply isoformat_iso_chars.
Qed.

(** The record written by [save_current_ip] for an address without a
    carriage return is read as it was written. *)
Lemma record_as_written ip d :
  PyStr.cr_free ip = true ->
  PyStr.universal_newlines (ip +:+ "," +:+ isoformat d)
  = ip +:+ "," +:+ isoformat d.
Proof.
  intros H. apply universal_newlines_cr_free. unfold PyStr.cr_free.
  rewrite !all_chars_app. fold (PyStr.cr_free ip). rewrite H.
  fold (PyStr.cr_free (isoformat d)). now rewrite isoformat_cr_free.
Qed.

Lemma total_microseconds_timedelta_of d s us :
  total_microseconds (timedelta_of d s us) = (d * 86400 + s) * 1000000 + us.
Proof.
  unfold total_microseconds, timedelta_of. simpl.
  pose proof (Z.div_mod us 1000000 ltac:(lia)).
  pose proof (Z.div_mod (s + us / 1000000) 86400 ltac:(lia)).
  lia.
Qed.

Lemma total_microseconds_sub a b :
  total_microseconds (Datetime.sub a b) = to_us a - to_us b.
Proof.
  unfold Datetime.sub. rewrite total_microseconds_timedelta_of.
  unfold to_us. lia.
Qed.

Lemma sub_same a : Datetime.sub a a = mk_timedelta 0 0 0.
Proof. unfold Datetime.sub. now rewrite !Z.sub_diag. Qed.

Lemma save_current_ip_spec env s ip w :
  save_current_ip env s ip w
  = (Ok tt,
     {| fs := <[ip_cache_file s := ip +:+ "," +:+ isoformat (clock env (ticks w))]>
                (fs w);
        ticks := S (ticks w); trace := trace w; stdout := stdout w;
        events := events w |}).
Proof. reflexivity. Qed.

(** C7, as the program has it.  For every comma-free string [ip] that does
    not begin with a whitespace character and holds no carriage return,
    saving [ip] and loading the state at once gives back [ip] and, as
    elapsed time, the time between the two successive readings of the
    clock: zero when the clock has not moved.  The timestamp written is
    read back by [fromisoformat] as the datetime it was written from. *)
Theorem save_then_load env s w ip :
  PyStr.comma_free ip = true ->
  PyStr.no_leading_space ip = true ->
  PyStr.cr_free ip = true ->
  fromisoformat env (isoformat (clock env (ticks w)))
  = Some (Naive (clock env (ticks w))) ->
  let t_saved := clock env (ticks w) in
  let t_loaded := clock env (S (ticks w)) in
  let elapsed := Datetime.sub t_loaded t_saved in
  fst ((save_current_ip env s ip;; get_last_known_ip env s) w)
  = Ok (Some ip, Some elapsed)
  /\ fs (snd ((save_current_ip env s ip;; get_last_known_ip env s) w))
       !! ip_cache_file s
     = Some (ip +:+ "," +:+ isoformat t_saved)
  /\ total_microseconds elapsed = to_us t_loaded - to_us t_saved
  /\ (t_loaded = t_saved -> elapsed = mk_timedelta 0 0 0).
Proof.
  intros Hcomma Hlead Hcr Hiso t_saved t_loaded elapsed.
  erewrite bind_ok by apply save_current_ip_spec.
  rewrite get_last_known_ip_spec.
  cbn [fs ticks]. rewrite lookup_insert_eq.
  rewrite record_as_written by exact Hcr.
  rewrite record_fields;
    auto using isoformat_comma_free, isoformat_ends_solid.
  rewrite Hiso. cbn [fst snd fs ticked].
  rewrite lookup_insert_eq. repeat split.
  - apply total_microseconds_sub.
  - intros E. subst elapsed. rewrite E. apply sub_same.
Qed.

Lemma save_then_load_witness :
  let env := env_of echo_first (ok "") (ok "") in
  fst ((save_current_ip env me "203.0.113.5";; get_last_known_ip env me)
         (world_of []))
  = Ok (Some "203.0.113.5", Some (mk_timedelta 0 1 0)).
Proof.
  intros env.
  refine (proj1 (save_then_load env me (world_of []) "203.0.113.5" _ _ _ _));
    reflexivity.
Defined.

(** C7, as stated, fails for a comma-free string that begins with a space:
    the space is stripped when the file is read back.  It also fails for a
    comma-free string that holds a carriage return, which is read back as a
    line feed. *)
Lemma save_then_load_strips_leading_space :
  let env := env_of echo_first (ok "") (ok "") in
  let w := world_of [] in
  let ip := " 203.0.113.5" in
  let broken := "a" +:+ String PyStr.CR "b" in
  (PyStr.comma_free ip = true
   /\ fromisoformat env (isoformat (clock env (ticks w)))
      = Some (Naive (clock env (ticks w)))
   /\ fst ((save_current_ip env me ip;; get_last_known_ip env me) w)
      = Ok (Some "203.0.113.5", Some (mk_timedelta 0 1 0))
   /\ fst ((save_current_ip env me ip;; get_last_known_ip env me) w)
      <> Ok (Some ip, Some (Datetime.sub (clock env 1) (clock env 0))))
  /\ (PyStr.comma_free broken = true
      /\ PyStr.no_leading_space broken = true
      /\ fst ((save_current_ip env me broken;; get_last_known_ip env me) w)
         = Ok (Some ("a" +:+ String PyStr.LF "b"), Some (mk_timedelta 0 1 0))
      /\ fst ((save_current_ip env me broken;; get_last_known_ip env me) w)
         <> Ok (Some broken, Some (Datetime.sub (clock env 1) (clock env 0)))).
Proof.
  intros env w ip broken. split.
  - repeat split; try reflexivity.
    vm_compute. discriminate.
  - repeat split; try reflexivity.
    vm_compute. discriminate.
Qed.

(** ** The update of the provider *)

Lemma neq_200 z : z <> 200 -> (z =? 200) = false.
Proof. intros H. now apply Z.eqb_neq. Qed.

Lemma update_read_fails env s ip w r :
  net env (list_request s) = Ok r ->
  status_code r <> 200 ->
  update_dns_records env s ip w
  = (Err (Exception_ ("Failed to get DNS records: " +:+ text r)),
     sent w [list_request s]).
Proof.
  intros Hnet Hstatus. unfold update_dns_records. mstep.
  rewrite Hnet, (neq_200 _ Hstatus). reflexivity.
Qed.

Lemma update_listed env s ip w ids :
  lists env s ids ->
  update_dns_records env s ip w
  = match ids with
    | [] => (Err (AttributeError "CloudflareDDNS" "domain"),
             sent w [list_request s])
    | _ =>
        let after := sent w [list_request s; batch_request s ip ids] in
        match net env (batch_request s ip ids) with
        | Ok r =>
            if status_code r =? 200 then (Ok true, after)
            else (Err (Exception_ ("Failed to update DNS records: " +:+ text r)),
                  after)
        | Err e => (Err e, after)
        end
    end.
Proof.
  intros (r & body & records & items & Hnet & Hstatus & Hjson & Hres & Hiter & Hids).
  unfold update_dns_records. mstep.
  rewrite Hnet, Hstatus, Hjson. change (200 =? 200) with true.
  cbn beta iota delta [negb].
  rewrite Hres, Hiter, Hids. cbn beta iota delta [trace fs ticks stdout].
  destruct ids as [|id ids]; [reflexivity|].
  destruct (net env (batch_request s ip (id :: ids))) as [r2|e]; [|wdone].
  destruct (status_code r2 =? 200); wdone.
Qed.

(** Whatever the provider answers, [update_dns_records] sends the listing
    request, possibly followed by one batch request, and touches nothing
    else. *)
Lemma update_frame env s ip w :
  snd (update_dns_records env s ip w) = sent w [list_request s]
  \/ exists ids,
       snd (update_dns_records env s ip w)
       = sent w [list_request s; batch_request s ip ids].
Proof.
  unfold update_dns_records. mstep. unfold sent. cbn [trace fs ticks stdout].
  destruct (net env (list_request s)) as [r|e]; [|now left].
  destruct (status_code r =? 200); [|now left]. cbn [negb].
  destruct (json_loads env (text r)) as [body|]; [|now left].
  destruct (Py.getitem body "result") as [records|e]; [|now left].
  destruct (Py.iter records) as [items|e]; [|now left].
  destruct (collect_ids (domains s) items []) as [ids|e]; [|now left].
  destruct ids as [|id ids]; [now left|].
  right. exists (id :: ids).
  destruct (net env (batch_request s ip (id :: ids))) as [r2|e]; [|wdone].
  destruct (status_code r2 =? 200); wdone.
Qed.

(** C6 at a zone where no A record carries a configured name: the update
    stops before any write request, but with the [AttributeError] of the
    unset attribute [domain] that the message reads, not with the error
    that names the missing record. *)
Theorem no_match_raises_attribute_error :
  let env := env_of echo_first (ok (Json.dumps zone_without_match)) (ok "") in
  let w := world_of [] in
  lists env me []
  /\ update_dns_records env me "203.0.113.5" w
     = (Err (AttributeError "CloudflareDDNS" "domain"), sent w [list_request me])
  /\ filter is_write (trace (snd (update_dns_records env me "203.0.113.5" w))) = []
  /\ (forall msg, fst (update_dns_records env me "203.0.113.5" w)
                  <> Err (Exception_ msg)).
Proof.
  intros env w.
  assert (Hl : lists env me []).
  { exists (mk_response 200 (Json.dumps zone_without_match)), zone_without_match.
    eexists. eexists. repeat split; reflexivity. }
  split; [exact Hl|].
  rewrite (update_listed env me "203.0.113.5" w [] Hl).
  repeat split. intros msg. discriminate.
Qed.

(** ** Frames *)

Lemma for_services_frame env l : forall w,
  exists k, snd (for_services env l w) = sent w (map ip_request (take k l)).
Proof.
  induction l as [|x l IH]; intros w.
  - exists 0%nat. simpl. now rewrite sent_nil.
  - simpl for_services. erewrite bind_ok by apply try_service_spec.
    destruct (net env (ip_request x)) as [r|e].
    + destruct (status_code r =? 200).
      * exists 1%nat. reflexivity.
      * destruct (IH (sent w [ip_request x])) as [k Hk].
        exists (S k). rewrite Hk. now rewrite sent_sent.
    + destruct (IH (sent w [ip_request x])) as [k Hk].
      exists (S k). rewrite Hk. now rewrite sent_sent.
Qed.

Lemma get_current_ip_frame env w r w1 :
  get_current_ip env w = (r, w1) ->
  exists k, w1 = sent w (map ip_request (take k ip_services)).
Proof.
  intros H. destruct (for_services_frame env ip_services w) as [k Hk].
  exists k. unfold get_current_ip in H. now rewrite H in Hk.
Qed.

Lemma echo_not_write l : filter is_write (map ip_request l) = [].
Proof. induction l as [|x l IH]; [reflexivity | exact IH]. Qed.

Lemma str_ne_true ip last : last <> Some ip -> str_ne (Some ip) last = true.
Proof.
  intros H. destruct last as [l|]; [|reflexivity]. simpl.
  apply negb_true_iff, String.eqb_neq. congruence.
Qed.

Lemma eqb_empty_false ip : ip <> "" -> String.eqb ip "" = false.
Proof. apply String.eqb_neq. Qed.

Lemma get_last_known_ip_world env s w :
  snd (get_last_known_ip env s w) = w
  \/ snd (get_last_known_ip env s w) = ticked w 1.
Proof.
  rewrite get_last_known_ip_spec.
  destruct (fs w !! ip_cache_file s) as [content|]; [|now left].
  destruct (PyStr.split PyStr.comma
              (PyStr.strip (PyStr.universal_newlines content)))
    as [|a [|b [|c l]]];
    try now left.
  destruct (fromisoformat env b) as [[d|d o]|]; (now left) || (now right).
Qed.

(** What [get_last_known_ip] returns is a pair of two values or of two
    [None], and it only reads the clock. *)
Lemma get_last_known_ip_frame env s w last et w2 :
  get_last_known_ip env s w = (Ok (last, et), w2) ->
  (w2 = w \/ w2 = ticked w 1)
  /\ ((last = None /\ et = None) \/ (exists l e, last = Some l /\ et = Some e)).
Proof.
  rewrite get_last_known_ip_spec.
  destruct (fs w !! ip_cache_file s) as [content|].
  - destruct (PyStr.split PyStr.comma
                (PyStr.strip (PyStr.universal_newlines content)))
      as [|a [|b [|c l]]];
      try discriminate.
    destruct (fromisoformat env b) as [[d|d o]|]; try discriminate.
    intros [= <- <- <-]. split; [now right | right; eauto].
  - intros [= <- <- <-]. split; [now left | now left].
Qed.

(** [log_change] after a successful load prints at most one line, an
    [InfoLine], and never raises. *)
Lemma log_change_frame env ip last et w :
  (last = None /\ et = None) \/ (exists l e, last = Some l /\ et = Some e) ->
  exists w3 lines,
    log_change env ip last et w = (Ok tt, w3)
    /\ fs w3 = fs w /\ trace w3 = trace w /\ (ticks w <= ticks w3)%nat
    /\ stdout w3 = stdout w ++ lines
    /\ filter is_error_line lines = [].
Proof.
  intros [[-> ->] | (l & e & -> & ->)].
  - exists w, []. simpl. rewrite app_nil_r. repeat split; reflexivity || lia.
  - unfold log_change. destruct (String.eqb l "").
    + exists w, []. simpl. rewrite app_nil_r. repeat split; reflexivity || lia.
    + eexists. eexists. split; [reflexivity|].
      cbn [fs trace ticks stdout]. repeat split; lia || reflexivity.
Qed.

(** The run of a changed address: after detection, load and the INFO line,
    what remains is the update followed by the save. *)
Lemma run_body_changed env s w ip last et w1 w2 :
  get_current_ip env w = (Ok (Some ip), w1) ->
  ip <> "" ->
  get_last_known_ip env s w1 = (Ok (last, et), w2) ->
  last <> Some ip ->
  exists w3 lines,
    run_body env s w
    = (update_dns_records env s ip;; save_current_ip env s ip) w3
    /\ fs w3 = fs w /\ trace w3 = trace w1 /\ (ticks w <= ticks w3)%nat
    /\ stdout w3 = stdout w ++ lines
    /\ filter is_error_line lines = [].
Proof.
  intros Hdetect Hip Hload Hdiff.
  destruct (get_current_ip_frame _ _ _ _ Hdetect) as [k ->].
  destruct (get_last_known_ip_frame _ _ _ _ _ _ Hload) as [Hw2 Hpair].
  destruct (log_change_frame env ip last et w2 Hpair)
    as (w3 & lines & Hlog & Hfs & Htrace & Hticks & Hout & Hlines).
  exists w3, lines. split.
  - unfold run_body. erewrite bind_ok by exact Hdetect. cbn beta iota.
    rewrite (eqb_empty_false _ Hip).
    erewrite bind_ok by exact Hload. cbn beta iota.
    rewrite (str_ne_true _ _ Hdiff).
    erewrite bind_ok by exact Hlog. reflexivity.
  - rewrite Hfs, Htrace, Hout.
    destruct Hw2 as [-> | ->]; cbn [fs trace ticks stdout sent ticked] in *;
      repeat split; first [assumption | lia | reflexivity].
Qed.

Lemma run_body_unchanged env s w ip et w1 w2 :
  get_current_ip env w = (Ok (Some ip), w1) ->
  ip <> "" ->
  get_last_known_ip env s w1 = (Ok (Some ip, et), w2) ->
  run_body env s w = (Ok tt, w2).
Proof.
  intros Hdetect Hip Hload. unfold run_body.
  erewrite bind_ok by exact Hdetect. cbn beta iota.
  rewrite (eqb_empty_false _ Hip).
  erewrite bind_ok by exact Hload. cbn beta iota.
  unfold str_ne. now rewrite String.eqb_refl.
Qed.

(** ** The unchanged address *)

(** C3, as the program has it.  When the address detected is not empty and
    equals the address read from the cache file, [run] ends normally, sends
    no request to the provider, prints nothing and leaves every file as it
    was. *)
Theorem unchanged_ip_is_noop env s w ip et w1 w2 :
  get_current_ip env w = (Ok (Some ip), w1) ->
  ip <> "" ->
  get_last_known_ip env s w1 = (Ok (Some ip, et), w2) ->
  let w' := snd (run env s w) in
  fst (run env s w) = Ok tt
  /\ filter is_provider (trace w') = filter is_provider (trace w)
  /\ stdout w' = stdout w
  /\ fs w' = fs w.
Proof.
  intros Hdetect Hip Hload w'. subst w'.
  rewrite (run_of_ok _ _ _ _ (run_body_unchanged _ _ _ _ _ _ _ Hdetect Hip Hload)).
  destruct (get_current_ip_frame _ _ _ _ Hdetect) as [k ->].
  destruct (get_last_known_ip_frame _ _ _ _ _ _ Hload) as [[-> | ->] _];
    cbn [fst snd fs trace ticks stdout sent ticked];
    rewrite filter_app, echo_not_provider, app_nil_r; repeat split.
Qed.

Lemma unchanged_ip_is_noop_witness :
  let env := env_of echo_third (ok (Json.dumps zone)) (ok "") in
  let w := world_of [(cache, "203.0.113.5,2024-01-01T00:00:00")] in
  fst (run env me w) = Ok tt
  /\ filter is_provider (trace (snd (run env me w))) = []
  /\ stdout (snd (run env me w)) = []
  /\ fs (snd (run env me w)) = fs w.
Proof.
  intros env w.
  refine (unchanged_ip_is_noop env me w "203.0.113.5" _ _ _ _ _ _).
  - reflexivity.
  - discriminate.
  - reflexivity.
Defined.

(** C3, as stated, fails when the body detected is empty and the cache file
    holds an empty address: the two are equal, and [run] prints an error. *)
Lemma empty_ip_equal_to_cache_is_logged :
  let env := env_of echo_blank (ok (Json.dumps zone)) (ok "") in
  let w := world_of [(cache, ",2024-01-01T00:00:00")] in
  fst (get_current_ip env w) = Ok (Some "")
  /\ fst (get_last_known_ip env me (snd (get_current_ip env w)))
     = Ok (Some "", Some (mk_timedelta 0 43200 0))
  /\ stdout w = []
  /\ stdout (snd (run env me w))
     = [ErrorLine (tick_clock 0)
          (Exception_ "Could not determine current IP address")].
Proof. intros env w. repeat split. Qed.

(** ** The changed address *)

Lemma run_changed_outcome env s w ip ids w3 :
  run_body env s w
  = (update_dns_records env s ip;; save_current_ip env s ip) w3 ->
  lists env s ids ->
  ids <> [] ->
  let after := sent w3 [list_request s; batch_request s ip ids] in
  let failed e :=
    (Ok tt, printed (ticked after 1) [ErrorLine (clock env (ticks w3)) e]) in
  run env s w
  = match net env (batch_request s ip ids) with
    | Ok r =>
        if status_code r =? 200
        then (Ok tt, snd (save_current_ip env s ip after))
        else failed (Exception_ ("Failed to update DNS records: " +:+ text r))
    | Err e => failed e
    end.
Proof.
  intros Hbody Hlists Hids after failed.
  pose proof (update_listed env s ip w3 ids Hlists) as Hup.
  destruct ids as [|id ids]; [congruence|]. cbv zeta in Hup.
  fold after in Hup.
  destruct (net env (batch_request s ip (id :: ids))) as [r|e].
  - destruct (status_code r =? 200).
    + apply run_of_ok. rewrite Hbody.
      erewrite bind_ok by exact Hup. reflexivity.
    + erewrite run_of_err
        by (rewrite Hbody; erewrite bind_err by exact Hup; reflexivity).
      reflexivity.
  - erewrite run_of_err
      by (rewrite Hbody; erewrite bind_err by exact Hup; reflexivity).
    reflexivity.
Qed.

Lemma writes_of_update t l s ip ids :
  filter is_write
    ((t ++ map ip_request l) ++ [list_request s; batch_request s ip ids])
  = filter is_write t ++ [batch_request s ip ids].
Proof.
  rewrite !filter_app, echo_not_write, app_nil_r. reflexivity.
Qed.

(** C1, as the program has it.  When [run] detects a non-empty address
    that differs from the one in the cache file (or there is no cache
    file), and the provider answers the listing with status 200 and at least
    one matching record, exactly one write request is sent: the batch
    update that sets [content] to the new address for every matched record.
    When that request is answered with status 200 the cache file is
    rewritten with the new address and the last reading of the clock, and
    no error is printed; when it is not, every file is left as it was. *)
Theorem changed_ip_is_pushed_then_saved env s w ip last et w1 w2 ids :
  get_current_ip env w = (Ok (Some ip), w1) ->
  ip <> "" ->
  get_last_known_ip env s w1 = (Ok (last, et), w2) ->
  last <> Some ip ->
  lists env s ids ->
  ids <> [] ->
  let w' := snd (run env s w) in
  let write := batch_request s ip ids in
  write
  = POST (DnsRecordsBatch (cf_api_base s) (zone_id s)) (Some (api_headers s))
      (JObj [("patches",
              JArr (map (fun id => JObj [("id", id); ("content", JStr ip)]) ids))])
  /\ filter is_write (trace w') = filter is_write (trace w) ++ [write]
  /\ (forall r,
        net env write = Ok r -> status_code r = 200 ->
        fs w'
        = <[ip_cache_file s := ip +:+ "," +:+ isoformat (clock env (pred (ticks w')))]>
            (fs w)
        /\ (ticks w < ticks w')%nat
        /\ filter is_error_line (stdout w') = filter is_error_line (stdout w))
  /\ ((forall r, net env write = Ok r -> status_code r <> 200) ->
      fs w' = fs w).
Proof.
  intros Hdetect Hip Hload Hdiff Hlists Hids w' write.
  destruct (run_body_changed _ _ _ _ _ _ _ _ Hdetect Hip Hload Hdiff)
    as (w3 & lines & Hbody & Hfs & Htrace & Hticks & Hout & Hlines).
  destruct (get_current_ip_frame _ _ _ _ Hdetect) as [k ->].
  cbn [trace sent] in Htrace.
  pose proof (run_changed_outcome env s w ip ids w3 Hbody Hlists Hids) as Hrun.
  cbv zeta in Hrun. subst w' write.
  split; [reflexivity|].
  destruct (net env (batch_request s ip ids)) as [r|e] eqn:Hnet.
  - destruct (status_code r =? 200) eqn:Hstatus; rewrite Hrun;
      cbn [snd fst save_current_ip fs trace ticks stdout sent printed ticked
           mbind M_bind now write_file];
      rewrite save_current_ip_spec || idtac;
      cbn [snd fst fs trace ticks stdout sent printed ticked Nat.pred Nat.add];
      rewrite Htrace, writes_of_update.
    + split; [reflexivity|]. split.
      * intros r' _ _. rewrite Hfs, Hout, filter_app, Hlines, app_nil_r.
        repeat split. lia.
      * intros Hfail. apply Z.eqb_eq in Hstatus.
        now destruct (Hfail r eq_refl).
    + split; [reflexivity|]. split.
      * intros r' [= <-] Hok. apply Z.eqb_neq in Hstatus. contradiction.
      * intros _. exact Hfs.
  - rewrite Hrun.
    cbn [snd fst fs trace ticks stdout sent printed ticked].
    rewrite Htrace, writes_of_update.
    split; [reflexivity|]. split; [discriminate|]. intros _. exact Hfs.
Qed.

Lemma changed_ip_is_pushed_then_saved_witness :
  let env := env_of echo_third (ok (Json.dumps zone)) (ok "{}") in
  let w := world_of [(cache, "203.0.113.4,2023-12-31T00:00:00.500000")] in
  let w' := snd (run env me w) in
  filter is_write (trace w')
  = [batch_request me "203.0.113.5" [JStr "r1"; JStr "r4"]]
  /\ fs w' !! cache = Some "203.0.113.5,2024-01-01T12:00:02"
  /\ filter is_error_line (stdout w') = [].
Proof.
  intros env w w'.
  destruct (changed_ip_is_pushed_then_saved env me w "203.0.113.5"
              (Some "203.0.113.4")
              (Some (mk_timedelta 1 43199 500000))
              (sent w (map ip_request ip_services))
              (ticked (sent w (map ip_request ip_services)) 1)
              [JStr "r1"; JStr "r4"])
    as (_ & Hwrite & Hsaved & _).
  - reflexivity.
  - discriminate.
  - reflexivity.
  - discriminate.
  - exists (mk_response 200 (Json.dumps zone)), zone.
    eexists. eexists. repeat split; reflexivity.
  - discriminate.
  - destruct (Hsaved (mk_response 200 "{}") eq_refl eq_refl) as (Hfs & _ & Hout).
    split; [exact Hwrite|]. split; [|exact Hout].
    unfold w'. rewrite Hfs. reflexivity.
Defined.

(** C1, as stated, fails when the provider does not answer the listing
    with status 200: the address has changed and no write request is
    sent. *)
Lemma changed_ip_without_write :
  let env := env_of echo_first (status 500 "Internal Server Error") (ok "{}") in
  let w := world_of [(cache, "203.0.113.4,2024-01-01T00:00:00")] in
  fst (get_current_ip env w) = Ok (Some "203.0.113.5")
  /\ fst (get_last_known_ip env me (snd (get_current_ip env w)))
     = Ok (Some "203.0.113.4", Some (mk_timedelta 0 43200 0))
  /\ filter is_write (trace (snd (run env me w))) = []
  /\ fs (snd (run env me w)) = fs w.
Proof. intros env w. repeat split. Qed.

(** ** Failures of the provider *)

Lemma changed_run_asks_provider env s w ip last et w1 w2 :
  get_current_ip env w = (Ok (Some ip), w1) ->
  ip <> "" ->
  get_last_known_ip env s w1 = (Ok (last, et), w2) ->
  last <> Some ip ->
  exists rest, trace (snd (run env s w)) = trace w1 ++ list_request s :: rest.
Proof.
  intros Hdetect Hip Hload Hdiff.
  destruct (run_body_changed _ _ _ _ _ _ _ _ Hdetect Hip Hload Hdiff)
    as (w3 & lines & Hbody & _ & Htrace & _).
  assert (Hsent : exists rest,
             trace (snd (update_dns_records env s ip w3))
             = trace w1 ++ list_request s :: rest).
  { destruct (update_frame env s ip w3) as [-> | [ids ->]];
      cbn [trace sent]; rewrite Htrace; eauto. }
  destruct Hsent as [rest Hsent]. exists rest.
  destruct (update_dns_records env s ip w3) as [[b|e] w4] eqn:Hup;
    cbn [snd] in Hsent.
  - erewrite run_of_ok
      by (rewrite Hbody; erewrite bind_ok by exact Hup; apply save_current_ip_spec).
    exact Hsent.
  - erewrite run_of_err
      by (rewrite Hbody; erewrite bind_err by exact Hup; reflexivity).
    exact Hsent.
Qed.

Lemma get_last_known_ip_stable env env2 s v v' last et v2 :
  fromisoformat env2 = fromisoformat env ->
  fs v' = fs v ->
  get_last_known_ip env s v = (Ok (last, et), v2) ->
  exists et' v2', get_last_known_ip env2 s v' = (Ok (last, et'), v2').
Proof.
  intros Hparser Hfs. rewrite !get_last_known_ip_spec, Hfs, Hparser.
  destruct (fs v !! ip_cache_file s) as [content|].
  - destruct (PyStr.split PyStr.comma
                (PyStr.strip (PyStr.universal_newlines content)))
      as [|a [|b [|c l]]];
      try discriminate.
    destruct (fromisoformat env b) as [[d|d o]|]; try discriminate.
    intros [= <- _ _]. do 2 eexists. reflexivity.
  - intros [= <- _ _]. do 2 eexists. reflexivity.
Qed.

(** A later run that starts from the same files and detects the same
    address compares it with the same cached address, and asks the provider
    again. *)
Lemma later_run_retries env env2 s w ip last et w1 w2 w' w1' :
  get_current_ip env w = (Ok (Some ip), w1) ->
  ip <> "" ->
  get_last_known_ip env s w1 = (Ok (last, et), w2) ->
  last <> Some ip ->
  fs w' = fs w ->
  fromisoformat env2 = fromisoformat env ->
  get_current_ip env2 w' = (Ok (Some ip), w1') ->
  In (list_request s) (drop (length (trace w')) (trace (snd (run env2 s w')))).
Proof.
  intros Hdetect Hip Hload Hdiff Hfs Hparser Hdetect2.
  destruct (get_current_ip_frame _ _ _ _ Hdetect) as [k Hw1].
  destruct (get_current_ip_frame _ _ _ _ Hdetect2) as [k2 Hw1'].
  assert (Hsame : fs w1' = fs w1) by (subst w1 w1'; exact Hfs).
  destruct (get_last_known_ip_stable env env2 s w1 w1' last et w2
              Hparser Hsame Hload) as (et' & w2' & Hload2).
  destruct (changed_run_asks_provider env2 s w' ip last et' w1' w2'
              Hdetect2 Hip Hload2 Hdiff) as [rest ->].
  subst w1'. cbn [trace sent]. rewrite <- app_assoc, drop_app_length.
  apply in_or_app. right. now left.
Qed.

(** A failure of the provider on the path of a changed address: the error
    raised carries the body of the answer, it is caught and printed, and no
    file changes. *)
Lemma provider_failure_on_change env s w ip last et w1 w2 msg :
  get_current_ip env w = (Ok (Some ip), w1) ->
  ip <> "" ->
  get_last_known_ip env s w1 = (Ok (last, et), w2) ->
  last <> Some ip ->
  (exists r,
     net env (list_request s) = Ok r /\ status_code r <> 200
     /\ msg = "Failed to get DNS records: " +:+ text r)
  \/ (exists ids r,
        lists env s ids /\ ids <> []
        /\ net env (batch_request s ip ids) = Ok r /\ status_code r <> 200
        /\ msg = "Failed to update DNS records: " +:+ text r) ->
  let w' := snd (run env s w) in
  fst (run_body env s w) = Err (Exception_ msg)
  /\ fst (run env s w) = Ok tt
  /\ (exists lines,
        stdout w'
        = stdout w ++ lines ++ [ErrorLine (clock env (pred (ticks w'))) (Exception_ msg)])
  /\ fs w' = fs w
  /\ fs w' !! ip_cache_file s = fs w !! ip_cache_file s
  /\ (forall env2 w1',
        fromisoformat env2 = fromisoformat env ->
        get_current_ip env2 w' = (Ok (Some ip), w1') ->
        In (list_request s)
           (drop (length (trace w')) (trace (snd (run env2 s w'))))).
Proof.
  intros Hdetect Hip Hload Hdiff Hfail w'.
  destruct (run_body_changed _ _ _ _ _ _ _ _ Hdetect Hip Hload Hdiff)
    as (w3 & lines & Hbody & Hfs & Htrace & Hticks & Hout & Hlines).
  assert (Hraise : exists w4,
             run_body env s w = (Err (Exception_ msg), w4)
             /\ fs w4 = fs w /\ ticks w4 = ticks w3 /\ stdout w4 = stdout w3).
  { destruct Hfail as [(r & Hnet & Hstatus & ->)
                      | (ids & r & Hlists & Hids & Hnet & Hstatus & ->)].
    - eexists. split.
      + rewrite Hbody.
        erewrite bind_err by (apply update_read_fails; eassumption).
        reflexivity.
      + cbn [fs ticks stdout sent]. auto.
    - pose proof (update_listed env s ip w3 ids Hlists) as Hup.
      destruct ids as [|id ids]; [congruence|]. cbv zeta in Hup.
      rewrite Hnet, (neq_200 _ Hstatus) in Hup.
      eexists. split.
      + rewrite Hbody. erewrite bind_err by exact Hup. reflexivity.
      + cbn [fs ticks stdout sent]. auto. }
  destruct Hraise as (w4 & Hraise & Hfs4 & Hticks4 & Hout4).
  assert (Hw' : w' = printed (ticked w4 1)
                       [ErrorLine (clock env (ticks w4)) (Exception_ msg)])
    by (subst w'; now rewrite (run_of_err _ _ _ _ _ Hraise)).
  assert (Hfs' : fs w' = fs w) by (rewrite Hw'; exact Hfs4).
  split; [now rewrite Hraise|].
  split; [now rewrite (run_of_err _ _ _ _ _ Hraise)|].
  split.
  { exists lines. rewrite Hw'. cbn [stdout ticks printed ticked Nat.add Nat.pred].
    now rewrite Hout4, Hout, app_assoc. }
  split; [exact Hfs'|]. split; [now rewrite Hfs'|].
  intros env2 w1'. now apply (later_run_retries env env2 s w ip last et w1 w2).
Qed.

Lemma run_trace env s w :
  trace (snd (run env s w)) = trace (snd (run_body env s w)).
Proof.
  destruct (run_body env s w) as [[[]|e] wb] eqn:Hbody.
  - now rewrite (run_of_ok _ _ _ _ Hbody).
  - now rewrite (run_of_err _ _ _ _ _ Hbody).
Qed.

(** Either the run takes the path of a changed address, or it sends
    requests to the IP-echo services only. *)
Lemma run_body_cases env s w :
  (exists ip last et w1 w2,
     get_current_ip env w = (Ok (Some ip), w1)
     /\ ip <> ""
     /\ get_last_known_ip env s w1 = (Ok (last, et), w2)
     /\ last <> Some ip)
  \/ (exists k,
        trace (snd (run_body env s w))
        = trace w ++ map ip_request (take k ip_services)).
Proof.
  destruct (get_current_ip env w) as [r w1] eqn:Hdetect.
  destruct (get_current_ip_frame _ _ _ _ Hdetect) as [k Hw1].
  assert (Htrace1 : trace w1 = trace w ++ map ip_request (take k ip_services))
    by now subst w1.
  destruct r as [[ip|]|e].
  - destruct (String.eqb ip "") eqn:Hip.
    + apply String.eqb_eq in Hip. subst ip. right. exists k.
      now rewrite (run_body_undetected env s w w1 (or_intror Hdetect)).
    + apply String.eqb_neq in Hip.
      destruct (get_last_known_ip env s w1) as [[[last et]|e] w2] eqn:Hload.
      * destruct (decide (last = Some ip)) as [-> | Hdiff].
        -- right. exists k.
           rewrite (run_body_unchanged _ _ _ _ _ _ _ Hdetect Hip Hload).
           destruct (get_last_known_ip_world env s w1) as [H | H];
             rewrite Hload in H; cbn [snd] in H; subst w2; exact Htrace1.
        -- left. exists ip, last, et, w1, w2. auto.
      * right. exists k. unfold run_body.
        erewrite bind_ok by exact Hdetect. cbn beta iota.
        rewrite (eqb_empty_false _ Hip).
        erewrite bind_err by exact Hload.
        destruct (get_last_known_ip_world env s w1) as [H | H];
          rewrite Hload in H; cbn [snd] in H; subst w2; exact Htrace1.
  - right. exists k.
    now rewrite (run_body_undetected env s w w1 (or_introl Hdetect)).
  - right. exists k. unfold run_body. now erewrite bind_err by exact Hdetect.
Qed.

(** What [update_dns_records] sends: the listing alone, or the listing and
    the batch update of the records it has matched. *)
Lemma update_cases env s ip w :
  snd (update_dns_records env s ip w) = sent w [list_request s]
  \/ (exists ids,
        lists env s ids /\ ids <> []
        /\ snd (update_dns_records env s ip w)
           = sent w [list_request s; batch_request s ip ids]).
Proof.
  destruct (net env (list_request s)) as [r|e] eqn:Hnet.
  - destruct (Z.eq_dec (status_code r) 200) as [Hstatus|Hstatus].
    + destruct (json_loads env (text r)) as [body|] eqn:Hjson.
      * destruct (Py.getitem body "result") as [records|e] eqn:Hres.
        -- destruct (Py.iter records) as [items|e] eqn:Hiter.
           ++ destruct (collect_ids (domains s) items []) as [ids|e] eqn:Hids.
              ** assert (Hlists : lists env s ids)
                   by (exists r, body, records, items; auto 10).
                 rewrite (update_listed env s ip w ids Hlists).
                 destruct ids as [|id ids]; [now left|].
                 right. exists (id :: ids). split; [exact Hlists|].
                 split; [discriminate|]. cbv zeta.
                 destruct (net env (batch_request s ip (id :: ids))) as [r2|e];
                   [destruct (status_code r2 =? 200)|]; reflexivity.
              ** left. unfold update_dns_records. mstep.
                 rewrite Hnet, Hstatus, Hjson. change (200 =? 200) with true.
                 cbn beta iota delta [negb]. now rewrite Hres, Hiter, Hids.
           ++ left. unfold update_dns_records. mstep.
              rewrite Hnet, Hstatus, Hjson. change (200 =? 200) with true.
              cbn beta iota delta [negb]. now rewrite Hres, Hiter.
        -- left. unfold update_dns_records. mstep.
           rewrite Hnet, Hstatus, Hjson. change (200 =? 200) with true.
           cbn beta iota delta [negb]. now rewrite Hres.
      * left. unfold update_dns_records. mstep.
        rewrite Hnet, Hstatus, Hjson. reflexivity.
    + left. now rewrite (update_read_fails env s ip w r Hnet Hstatus).
  - left. unfold update_dns_records. mstep. now rewrite Hnet.
Qed.

Lemma changed_run_trace env s w ip last et w1 w2 :
  get_current_ip env w = (Ok (Some ip), w1) ->
  ip <> "" ->
  get_last_known_ip env s w1 = (Ok (last, et), w2) ->
  last <> Some ip ->
  exists k w3,
    trace w3 = trace w ++ map ip_request (take k ip_services)
    /\ trace (snd (run env s w))
       = trace (snd (update_dns_records env s ip w3)).
Proof.
  intros Hdetect Hip Hload Hdiff.
  destruct (run_body_changed _ _ _ _ _ _ _ _ Hdetect Hip Hload Hdiff)
    as (w3 & lines & Hbody & _ & Htrace & _).
  destruct (get_current_ip_frame _ _ _ _ Hdetect) as [k ->].
  exists k, w3. split; [exact Htrace|].
  rewrite run_trace, Hbody.
  destruct (update_dns_records env s ip w3) as [[b|e] w4] eqn:Hup.
  - erewrite bind_ok by exact Hup. reflexivity.
  - erewrite bind_err by exact Hup. reflexivity.
Qed.

Lemma echo_request_not_provider req l :
  In req (map ip_request l) -> is_provider req = false.
Proof. intros H. apply in_map_iff in H as (x & <- & _). reflexivity. Qed.

(** C2. When a request that the run sends to the provider, the listing or
    the batch update, is answered with a status other than 200, the run
    raises the error that carries the body of the answer; [run] catches
    and prints it, and every file is left as it was: the cache file keeps
    its value, or stays absent.  A later run that starts from these files
    and detects the same address asks the provider again. *)
Theorem provider_failure_keeps_state env s w req r :
  let w' := snd (run env s w) in
  In req (drop (length (trace w)) (trace w')) ->
  is_provider req = true ->
  net env req = Ok r ->
  status_code r <> 200 ->
  let msg :=
    (if is_write req then "Failed to update DNS records: "
     else "Failed to get DNS records: ") +:+ text r in
  fst (run_body env s w) = Err (Exception_ msg)
  /\ fst (run env s w) = Ok tt
  /\ (exists lines,
        stdout w'
        = stdout w ++ lines ++ [ErrorLine (clock env (pred (ticks w'))) (Exception_ msg)])
  /\ fs w' = fs w
  /\ fs w' !! ip_cache_file s = fs w !! ip_cache_file s
  /\ (exists ip,
        fst (get_current_ip env w) = Ok (Some ip)
        /\ forall env2 w1',
             fromisoformat env2 = fromisoformat env ->
             get_current_ip env2 w' = (Ok (Some ip), w1') ->
             In (list_request s)
                (drop (length (trace w')) (trace (snd (run env2 s w'))))).
Proof.
  intros w' Hin Hprovider Hnet Hstatus msg.
  destruct (run_body_cases env s w)
    as [(ip & last & et & w1 & w2 & Hdetect & Hip & Hload & Hdiff) | [k Htrace]].
  - assert (Hfail :
      (exists r0,
         net env (list_request s) = Ok r0 /\ status_code r0 <> 200
         /\ msg = "Failed to get DNS records: " +:+ text r0)
      \/ (exists ids r0,
            lists env s ids /\ ids <> []
            /\ net env (batch_request s ip ids) = Ok r0 /\ status_code r0 <> 200
            /\ msg = "Failed to update DNS records: " +:+ text r0)).
    { destruct (changed_run_trace _ _ _ _ _ _ _ _ Hdetect Hip Hload Hdiff)
        as (k & w3 & Htrace3 & Htrace).
      subst w'. rewrite Htrace in Hin.
      destruct (update_cases env s ip w3) as [Hup | (ids & Hlists & Hids & Hup)];
        rewrite Hup in Hin; cbn [trace sent] in Hin;
        rewrite Htrace3, <- app_assoc, drop_app_length in Hin;
        apply in_app_or in Hin as [Hin | Hin];
        try (rewrite (echo_request_not_provider _ _ Hin) in Hprovider;
             discriminate Hprovider).
      - destruct Hin as [<- | []]. left. exists r. auto.
      - destruct Hin as [<- | [<- | []]].
        + destruct Hlists as (r0 & _ & _ & _ & Hnet0 & Hstatus0 & _).
          rewrite Hnet in Hnet0. injection Hnet0 as <-. contradiction.
        + right. exists ids, r. auto 10. }
    destruct (provider_failure_on_change env s w ip last et w1 w2 msg
                Hdetect Hip Hload Hdiff Hfail)
      as (H1 & H2 & H3 & H4 & H5 & H6).
    repeat (split; [assumption|]).
    exists ip. split; [now rewrite Hdetect | exact H6].
  - subst w'. rewrite run_trace, Htrace, drop_app_length in Hin.
    rewrite (echo_request_not_provider _ _ Hin) in Hprovider.
    discriminate Hprovider.
Qed.

Lemma provider_failure_keeps_state_witness :
  let env := env_of echo_first (ok (Json.dumps zone)) (status 403 "forbidden") in
  let w := world_of [(cache, "203.0.113.4,2024-01-01T00:00:00")] in
  let w' := snd (run env me w) in
  fst (run_body env me w)
  = Err (Exception_ "Failed to update DNS records: forbidden")
  /\ fs w' = fs w
  /\ (exists ip,
        fst (get_current_ip env w) = Ok (Some ip)
        /\ forall env2 w1',
             fromisoformat env2 = fromisoformat env ->
             get_current_ip env2 w' = (Ok (Some ip), w1') ->
             In (list_request me)
                (drop (length (trace w')) (trace (snd (run env2 me w'))))).
Proof.
  intros env w w'.
  destruct (provider_failure_keeps_state env me w
              (batch_request me "203.0.113.5" [JStr "r1"; JStr "r4"])
              (mk_response 403 "forbidden"))
    as (Hraise & _ & _ & Hfs & _ & Hretry).
  - right. right. left. reflexivity.
  - reflexivity.
  - reflexivity.
  - discriminate.
  - split; [exact Hraise|]. split; [exact Hfs | exact Hretry].
Defined.

(** ** The configuration *)

Lemma truthy_not_empty v : Py.truthy v = true -> Py.empty v = false.
Proof.
  destruct v as [| b | z | s | l | l]; try reflexivity.
  - destruct s; [discriminate | reflexivity].
  - destruct l; [discriminate | reflexivity].
  - destruct l; [discriminate | reflexivity].
Qed.

(** The constructor once the file is read and parsed: the three fields are
    looked up and tested in turn, and the world is not touched. *)
Lemma init_loaded env path w content config :
  fs w !! path = Some content ->
  json_loads env (PyStr.universal_newlines content) = Some config ->
  __init__ env path w
  = (a ← Py.getitem config "api_token";
     if negb (Py.truthy a) then Err (Exception_ "API token is required")
     else
       z ← Py.getitem config "zone_id";
       if negb (Py.truthy z) then Err (Exception_ "Zone ID is required")
       else
         d ← Py.getitem config "domains";
         if negb (Py.truthy d)
         then Err (Exception_ "At least one domain is required")
         else Ok {| api_token := a; zone_id := z; domains := d;
                    ip_cache_file := wd env +:+ "/last_ip.txt";
                    cf_api_base := "https://api.cloudflare.com/client/v4" |},
     w).
Proof.
  intros Hfile Hjson. unfold __init__. mstep. rewrite Hfile, Hjson.
  unfold mbind, result_bind.
  destruct (Py.getitem config "api_token") as [a|e]; [|reflexivity].
  destruct (Py.truthy a); [|reflexivity]. cbn [negb].
  destruct (Py.getitem config "zone_id") as [z|e]; [|reflexivity].
  destruct (Py.truthy z); [|reflexivity]. cbn [negb].
  destruct (Py.getitem config "domains") as [d|e]; [|reflexivity].
  destruct (Py.truthy d); reflexivity.
Qed.

Lemma init_world env path w : snd (__init__ env path w) = w.
Proof.
  unfold __init__. mstep.
  destruct (fs w !! path) as [content|]; [|reflexivity].
  destruct (json_loads env (PyStr.universal_newlines content)) as [config|]; [|reflexivity].
  destruct (Py.getitem config "api_token") as [a|e]; [|reflexivity].
  destruct (Py.truthy a); [|reflexivity]. cbn [negb].
  destruct (Py.getitem config "zone_id") as [z|e]; [|reflexivity].
  destruct (Py.truthy z); [|reflexivity]. cbn [negb].
  destruct (Py.getitem config "domains") as [d|e]; [|reflexivity].
  destruct (Py.truthy d); reflexivity.
Qed.

Lemma main_of_init_err env w e w0 :
  __init__ env (default_config_file env) w = (Err e, w0) ->
  main env w = (Err e, w).
Proof.
  intros H. pose proof (init_world env (default_config_file env) w) as Hw.
  rewrite H in Hw. cbn [snd] in Hw. subst w0.
  unfold main. now erewrite bind_err by exact H.
Qed.

(** C4. For every configuration in which [api_token], [zone_id] or
    [domains] is missing or empty, the constructor raises and the world is
    as before: no request has been sent, and the entry point ends there
    without sending one.  When the constructor succeeds, the three fields
    are present and not empty. *)
Theorem init_requires_all_fields env path w content config :
  fs w !! path = Some content ->
  json_loads env (PyStr.universal_newlines content) = Some config ->
  (missing_or_empty config "api_token"
   \/ missing_or_empty config "zone_id"
   \/ missing_or_empty config "domains" ->
   exists e,
     __init__ env path w = (Err e, w)
     /\ (path = default_config_file env ->
         main env w = (Err e, w) /\ trace (snd (main env w)) = trace w))
  /\ (forall u w',
        __init__ env path w = (Ok u, w') ->
        w' = w
        /\ present_nonempty config "api_token"
        /\ present_nonempty config "zone_id"
        /\ present_nonempty config "domains").
Proof.
  intros Hfile Hjson.
  pose proof (init_loaded env path w content config Hfile Hjson) as Hinit.
  unfold missing_or_empty, present_nonempty.
  unfold mbind, result_bind in Hinit.
  destruct (Py.getitem config "api_token") as [a|ea];
    [destruct (Py.truthy a) eqn:Ha; cbn [negb] in Hinit;
     [destruct (Py.getitem config "zone_id") as [z|ez];
      [destruct (Py.truthy z) eqn:Hz; cbn [negb] in Hinit;
       [destruct (Py.getitem config "domains") as [d|ed];
        [destruct (Py.truthy d) eqn:Hd; cbn [negb] in Hinit|]|]|]|]|].
  1: { split.
       - apply truthy_not_empty in Ha, Hz, Hd.
         intros [H | [H | H]]; congruence.
       - intros u w' Hu. rewrite Hinit in Hu. injection Hu as _ <-.
         apply truthy_not_empty in Ha, Hz, Hd. eauto 10. }
  all: split;
    [ intros _; eexists; split; [exact Hinit|];
      intros ->; rewrite (main_of_init_err _ _ _ _ Hinit); split; reflexivity
    | intros u w' Hu; rewrite Hinit in Hu; discriminate Hu ].
Qed.

Lemma init_requires_all_fields_witness :
  let env := env_of echo_first (ok (Json.dumps zone)) (ok "{}") in
  (exists e,
     main env (world_of [(config_file, Json.dumps config_no_zone)])
     = (Err e, world_of [(config_file, Json.dumps config_no_zone)]))
  /\ (exists e,
        main env (world_of [(config_file, Json.dumps config_no_domain)])
        = (Err e, world_of [(config_file, Json.dumps config_no_domain)]))
  /\ present_nonempty config "domains".
Proof.
  intros env. split; [|split].
  - destruct (proj1 (init_requires_all_fields env config_file
                       (world_of [(config_file, Json.dumps config_no_zone)])
                       (Json.dumps config_no_zone) config_no_zone
                       eq_refl eq_refl))
      as (e & _ & Hmain).
    + right. left. exact I.
    + exists e. apply Hmain. reflexivity.
  - destruct (proj1 (init_requires_all_fields env config_file
                       (world_of [(config_file, Json.dumps config_no_domain)])
                       (Json.dumps config_no_domain) config_no_domain
                       eq_refl eq_refl))
      as (e & _ & Hmain).
    + right. right. reflexivity.
    + exists e. apply Hmain. reflexivity.
  - apply (proj2 (init_requires_all_fields env config_file
                    (world_of [(config_file, Json.dumps config)])
                    (Json.dumps config) config eq_refl eq_refl)
             me (world_of [(config_file, Json.dumps config)])).
    reflexivity.
Defined.

(** ** Errors at the top level *)

Lemma update_stdout env s ip w :
  stdout (snd (update_dns_records env s ip w)) = stdout w.
Proof.
  destruct (update_frame env s ip w) as [-> | [ids ->]]; reflexivity.
Qed.

(** The body of [run] prints no error line of its own. *)
Lemma run_body_stdout env s w :
  exists lines,
    stdout (snd (run_body env s w)) = stdout w ++ lines
    /\ filter is_error_line lines = [].
Proof.
  destruct (get_current_ip env w) as [r w1] eqn:Hdetect.
  destruct (get_current_ip_frame _ _ _ _ Hdetect) as [k Hw1].
  assert (Hout1 : stdout w1 = stdout w) by now subst w1.
  destruct r as [[ip|]|e].
  - destruct (String.eqb ip "") eqn:Hip.
    + apply String.eqb_eq in Hip. subst ip. exists [].
      rewrite (run_body_undetected env s w w1 (or_intror Hdetect)).
      cbn [snd]. now rewrite app_nil_r.
    + apply String.eqb_neq in Hip.
      destruct (get_last_known_ip env s w1) as [[[last et]|e] w2] eqn:Hload.
      * destruct (decide (last = Some ip)) as [-> | Hdiff].
        -- exists [].
           rewrite (run_body_unchanged _ _ _ _ _ _ _ Hdetect Hip Hload).
           destruct (get_last_known_ip_world env s w1) as [H | H];
             rewrite Hload in H; cbn [snd] in H; subst w2;
             cbn [snd stdout ticked]; now rewrite app_nil_r.
        -- destruct (run_body_changed _ _ _ _ _ _ _ _ Hdetect Hip Hload Hdiff)
             as (w3 & lines & Hbody & _ & _ & _ & Hout & Hlines).
           exists lines. split; [|exact Hlines]. rewrite Hbody, <- Hout.
           pose proof (update_stdout env s ip w3) as Hup.
           destruct (update_dns_records env s ip w3) as [[b|e] w4] eqn:E;
             cbn [snd] in Hup.
           ++ erewrite bind_ok by exact E. exact Hup.
           ++ erewrite bind_err by exact E. exact Hup.
      * exists []. unfold run_body.
        erewrite bind_ok by exact Hdetect. cbn beta iota.
        rewrite (eqb_empty_false _ Hip).
        erewrite bind_err by exact Hload.
        destruct (get_last_known_ip_world env s w1) as [H | H];
          rewrite Hload in H; cbn [snd] in H; subst w2;
          cbn [snd stdout ticked]; now rewrite app_nil_r.
  - exists []. rewrite (run_body_undetected env s w w1 (or_introl Hdetect)).
    cbn [snd]. now rewrite app_nil_r.
  - exists []. unfold run_body. erewrite bind_err by exact Hdetect.
    cbn [snd]. now rewrite app_nil_r.
Qed.

(** C9, as the program has it.  [run] always ends normally.  When its body
    raises an error, that error is caught once: exactly one error line is
    printed, with the reading of the clock and the error; when the body
    ends normally no error line is printed.  Once the updater is built, the
    process therefore exits with status 0.  The errors of the constructor
    are raised outside [run]: they are not caught or printed, and the
    process exits with status 1. *)
Theorem run_catches_every_error env s w :
  fst (run env s w) = Ok tt
  /\ (forall e wb,
        run_body env s w = (Err e, wb) ->
        snd (run env s w)
        = printed (ticked wb 1) [ErrorLine (clock env (ticks wb)) e]
        /\ filter is_error_line (stdout (snd (run env s w)))
           = filter is_error_line (stdout w) ++ [ErrorLine (clock env (ticks wb)) e])
  /\ (forall wb,
        run_body env s w = (Ok tt, wb) ->
        snd (run env s w) = wb
        /\ filter is_error_line (stdout (snd (run env s w)))
           = filter is_error_line (stdout w))
  /\ (forall u w0,
        __init__ env (default_config_file env) w = (Ok u, w0) ->
        main env w = run env u w0
        /\ exit_status (fst (main env w)) = 0)
  /\ (forall e w0,
        __init__ env (default_config_file env) w = (Err e, w0) ->
        main env w = (Err e, w)
        /\ exit_status (fst (main env w)) = 1).
Proof.
  assert (Hok : forall u v, fst (run env u v) = Ok tt).
  { intros u v. unfold run, catch.
    destruct (run_body env u v) as [[[]|e] wb]; reflexivity. }
  destruct (run_body_stdout env s w) as (lines & Hout & Hlines).
  split; [apply Hok|]. split; [|split; [|split]].
  - intros e wb Hbody. rewrite (run_of_err _ _ _ _ _ Hbody).
    split; [reflexivity|]. rewrite Hbody in Hout.
    cbn [snd stdout printed ticked] in *.
    now rewrite Hout, !filter_app, Hlines, app_nil_r.
  - intros wb Hbody. rewrite (run_of_ok _ _ _ _ Hbody).
    split; [reflexivity|]. rewrite Hbody in Hout. cbn [snd] in *.
    now rewrite Hout, filter_app, Hlines, app_nil_r.
  - intros u w0 Hinit.
    assert (Hmain : main env w = run env u w0)
      by (unfold main; now erewrite bind_ok by exact Hinit).
    split; [exact Hmain|]. now rewrite Hmain, Hok.
  - intros e w0 Hinit. rewrite (main_of_init_err _ _ _ _ Hinit).
    split; reflexivity.
Qed.

Lemma run_catches_every_error_witness :
  let env := env_of echo_first (status 500 "Internal Server Error") (ok "{}") in
  let w := world_of [(config_file, Json.dumps config)] in
  fst (run env me w) = Ok tt
  /\ filter is_error_line (stdout (snd (run env me w)))
     = [ErrorLine (tick_clock 0)
          (Exception_ "Failed to get DNS records: Internal Server Error")]
  /\ exit_status (fst (main env w)) = 0
  /\ exit_status (fst (main env (world_of []))) = 1.
Proof.
  intros env w.
  destruct (run_catches_every_error env me w) as (Hok & Herr & _ & Hmain & _).
  destruct (run_catches_every_error env me (world_of []))
    as (_ & _ & _ & _ & Hfatal).
  split; [exact Hok|]. split; [|split].
  - refine (proj2 (Herr (Exception_ "Failed to get DNS records: Internal Server Error")
                     (sent w [ip_request "https://ifconfig.me/ip";
                              list_request me]) _)).
    reflexivity.
  - refine (proj2 (Hmain me w _)). reflexivity.
  - refine (proj2 (Hfatal (FileNotFoundError config_file) (world_of []) _)).
    reflexivity.
Defined.

(** C9, as stated, fails at the entry point: without a configuration file
    the constructor raises outside [run]; nothing is printed and the
    process exits with status 1. *)
Lemma constructor_error_reaches_the_top :
  let env := env_of echo_first (ok (Json.dumps zone)) (ok "{}") in
  let w := world_of [] in
  fst (main env w) = Err (FileNotFoundError config_file)
  /\ exit_status (fst (main env w)) = 1
  /\ stdout (snd (main env w)) = []
  /\ fst (main env (world_of [(config_file, Json.dumps config_no_zone)]))
     = Err (KeyError "zone_id").
Proof. intros env w. repeat split. Qed.

(** ** The strict reader reads back what [isoformat] writes *)

Lemma digit_val_digit n : Iso.digit_val (digit n) = Some (n mod 10).
Proof.
  unfold digit.
  pose proof (Z.mod_pos_bound n 10 ltac:(lia)) as Hb.
  rewrite <- (Z2Nat.id (n mod 10)) at 2 by lia.
  assert (H : (Z.to_nat (n mod 10) < 10)%nat) by lia.
  revert H. generalize (Z.to_nat (n mod 10)). intros k Hk.
  do 10 (destruct k as [|k]; [reflexivity|]). lia.
Qed.

Lemma number_pad w : forall k acc m s,
  0 <= m < 10 ^ Z.of_nat w ->
  Iso.number (w + k) acc (pad w m +:+ s)
  = Iso.number k (acc * 10 ^ Z.of_nat w + m) s.
Proof.
  induction w as [|w IH]; intros k acc m s Hm.
  - simpl in *. f_equal. lia.
  - rewrite Nat2Z.inj_succ, Z.pow_succ_r in * by lia.
    cbn [pad]. rewrite append_assoc.
    replace (S w + k)%nat with (w + S k)%nat by lia.
    pose proof (Z.div_mod m 10 ltac:(lia)) as Hdm.
    pose proof (Z.mod_pos_bound m 10 ltac:(lia)) as Hmod.
    rewrite IH by (split; [apply Z.div_pos; lia | apply Z.div_lt_upper_bound; lia]).
    rewrite append_cons, append_nil. cbn [Iso.number]. rewrite digit_val_digit.
    f_equal. lia.
Qed.

Lemma number_pad_exact w m s :
  0 <= m < 10 ^ Z.of_nat w ->
  Iso.number w 0 (pad w m +:+ s) = Some (m, s).
Proof.
  intros Hm. rewrite <- (Nat.add_0_r w) at 1.
  rewrite number_pad by exact Hm. reflexivity.
Qed.

Lemma append_empty_r (a : string) : a +:+ "" = a.
Proof.
  induction a as [|x a IH]; [reflexivity|].
  rewrite append_cons. now rewrite IH.
Qed.

Lemma expect_same c s : Iso.expect c (String c "" +:+ s) = Some s.
Proof.
  rewrite append_cons, append_nil. unfold Iso.expect.
  now rewrite Ascii.eqb_refl.
Qed.

Lemma parse_isoformat d :
  Datetime.valid d = true -> Iso.parse (isoformat d) = Some (Naive d).
Proof.
  intros Hvalid. pose proof Hvalid as Hv.
  unfold Datetime.valid in Hv.
  repeat (apply andb_prop in Hv as [Hv ?]).
  assert (Hday : day d <= 31)
    by (assert (days_in_month (year d) (month d) <= 31)
          by (unfold days_in_month;
              repeat match goal with |- context [if ?b then _ else _] => destruct b end;
              lia);
        lia).
  unfold Iso.parse, isoformat.
  do 5 (rewrite number_pad_exact by (simpl; lia); cbn [mbind option_bind];
        rewrite expect_same; cbn [mbind option_bind]).
  rewrite number_pad_exact by (simpl; lia). cbn [mbind option_bind].
  destruct (microsecond d =? 0) eqn:Hus.
  - apply Z.eqb_eq in Hus.
    cbn [Iso.fraction Iso.offset mbind option_bind].
    rewrite <- Hus. destruct d. cbn in *. now rewrite Hvalid.
  - rewrite append_cons, append_nil. cbn [Iso.fraction].
    rewrite <- (append_empty_r (pad 6 (microsecond d))).
    rewrite number_pad_exact by (simpl; lia).
    cbn [Iso.offset mbind option_bind].
    destruct d. cbn in *. now rewrite Hvalid.
Qed.

(** With the strict reader as [fromisoformat], the round trip of C7 holds
    at every valid reading of the clock. *)
Corollary save_then_load_strict env s w ip :
  fromisoformat env = Iso.parse ->
  Datetime.valid (clock env (ticks w)) = true ->
  PyStr.comma_free ip = true ->
  PyStr.no_leading_space ip = true ->
  PyStr.cr_free ip = true ->
  fst ((save_current_ip env s ip;; get_last_known_ip env s) w)
  = Ok (Some ip,
        Some (Datetime.sub (clock env (S (ticks w))) (clock env (ticks w)))).
Proof.
  intros Hparser Hvalid Hcomma Hlead Hcr.
  erewrite bind_ok by apply save_current_ip_spec.
  rewrite get_last_known_ip_spec.
  cbn [fs ticks]. rewrite lookup_insert_eq.
  rewrite record_as_written by exact Hcr.
  rewrite record_fields;
    auto using isoformat_comma_free, isoformat_ends_solid.
  now rewrite Hparser, parse_isoformat.
Qed.

(** * Further properties of the program *)

(** ** The filter of the listing *)

Lemma collect_ids_app domains a : forall b acc,
  collect_ids domains (a ++ b) acc
  = (ids ← collect_ids domains a acc; collect_ids domains b ids).
Proof.
  induction a as [|x a IH]; intros b acc; [reflexivity|].
  cbn [app collect_ids]. unfold mbind, result_bind in *.
  destruct (Py.getitem x "type") as [ty|e]; [|reflexivity].
  destruct (Py.eq ty (JStr "A")); [|apply IH].
  destruct (Py.getitem x "name") as [name|e]; [|reflexivity].
  destruct (Py.contains domains name) as [[]|e]; [| apply IH | reflexivity].
  destruct (Py.getitem x "id") as [id|e]; [apply IH | reflexivity].
Qed.

Lemma eq_str_A type : Py.eq (JStr type) (JStr "A") = String.eqb type "A".
Proof. reflexivity. Qed.

Lemma contains_domains domains name :
  Py.contains (JArr (map JStr domains)) (JStr name)
  = Ok (existsb (fun domain => String.eqb domain name) domains).
Proof.
  unfold Py.contains. f_equal.
  induction domains as [|x l IH]; [reflexivity|].
  cbn [map existsb]. now rewrite IH.
Qed.

(** The loop of [update_dns_records] over a listing of well-formed records
    keeps, in the order of the listing, the identifiers of the records of
    type A whose name is one of the configured domains. *)
Theorem collect_ids_filters domains items ds acc :
  Forall2 describes items ds ->
  collect_ids (JArr (map JStr domains)) items acc
  = Ok (acc ++ map (fun d => fst (fst d)) (filter (wanted domains) ds)).
Proof.
  intros H. revert acc.
  induction H as [|record d items ds (Hty & Hname & Hid) _ IH]; intros acc.
  - cbn. now rewrite app_nil_r.
  - cbn [collect_ids]. unfold mbind, result_bind. rewrite Hty, eq_str_A.
    destruct (wanted domains d) eqn:Hw; unfold wanted in Hw.
    + rewrite filter_cons_True by (unfold wanted; now rewrite Hw).
      apply andb_prop in Hw as [Ha Hex].
      rewrite Ha, Hname, contains_domains, Hex, Hid, IH.
      cbn [map]. now rewrite <- app_assoc.
    + rewrite filter_cons_False by (unfold wanted; now rewrite Hw).
      destruct (String.eqb (snd (fst d)) "A"); [|apply IH].
      cbn [andb] in Hw. rewrite Hname, contains_domains, Hw. apply IH.
Qed.

Lemma collect_ids_filters_witness :
  collect_ids (domains me)
    [ record "r1" "A" "home.example.com" "198.51.100.7";
      record "r2" "AAAA" "home.example.com" "2001:db8::7";
      record "r3" "A" "www.example.com" "198.51.100.8";
      record "r4" "A" "vpn.example.com" "198.51.100.7" ] []
  = Ok [JStr "r1"; JStr "r4"].
Proof.
  apply (collect_ids_filters ["home.example.com"; "vpn.example.com"] _
           [ (JStr "r1", "A", "home.example.com");
             (JStr "r2", "AAAA", "home.example.com");
             (JStr "r3", "A", "www.example.com");
             (JStr "r4", "A", "vpn.example.com") ] []).
  repeat constructor.
Defined.

(** When [domains] is configured as one string instead of a list, the
    constructor accepts it as long as it is not empty, and the loop keeps
    the A records whose name occurs in that string: a name that is only a
    part of the configured one is matched too. *)
Theorem string_domains_match_substrings text items ds acc :
  text <> "" ->
  Forall2 describes items ds ->
  Py.truthy (JStr text) = true
  /\ collect_ids (JStr text) items acc
     = Ok (acc ++ map (fun d => fst (fst d)) (filter (wanted_in_text text) ds)).
Proof.
  intros Htext H. split.
  - cbn. now rewrite (eqb_empty_false _ Htext).
  - clear Htext. revert acc.
    induction H as [|record d items ds (Hty & Hname & Hid) _ IH]; intros acc.
    + cbn. now rewrite app_nil_r.
    + cbn [collect_ids]. unfold mbind, result_bind. rewrite Hty, eq_str_A.
      destruct (wanted_in_text text d) eqn:Hw; unfold wanted_in_text in Hw.
      * rewrite filter_cons_True by (unfold wanted_in_text; now rewrite Hw).
        apply andb_prop in Hw as [Ha Hsub].
        rewrite Ha, Hname. cbn [Py.contains]. rewrite Hsub, Hid, IH.
        cbn [map]. now rewrite <- app_assoc.
      * rewrite filter_cons_False by (unfold wanted_in_text; now rewrite Hw).
        destruct (String.eqb (snd (fst d)) "A"); [|apply IH].
        cbn [andb] in Hw. rewrite Hname. cbn [Py.contains]. rewrite Hw.
        apply IH.
Qed.

Lemma string_domains_match_substrings_witness :
  collect_ids (JStr "home.example.com")
    [ record "r1" "A" "home.example.com" "198.51.100.7";
      record "r5" "A" "example.com" "198.51.100.9";
      record "r3" "A" "www.example.com" "198.51.100.8" ] []
  = Ok [JStr "r1"; JStr "r5"].
Proof.
  refine (proj2 (string_domains_match_substrings "home.example.com" _
                   [ (JStr "r1", "A", "home.example.com");
                     (JStr "r5", "A", "example.com");
                     (JStr "r3", "A", "www.example.com") ] [] _ _)).
  - discriminate.
  - repeat constructor.
Defined.

(** A record that cannot be read stops the whole update: when the listing
    holds, after records that are read without error, a record whose
    ["type"] cannot be looked up, [update_dns_records] raises that error
    after the listing request alone, whatever the records before it have
    matched. *)
Theorem unreadable_record_stops_update env s ip w r body records before bad after ids e :
  net env (list_request s) = Ok r ->
  status_code r = 200 ->
  json_loads env (text r) = Some body ->
  Py.getitem body "result" = Ok records ->
  Py.iter records = Ok (before ++ bad :: after) ->
  collect_ids (domains s) before [] = Ok ids ->
  Py.getitem bad "type" = Err e ->
  update_dns_records env s ip w = (Err e, sent w [list_request s]).
Proof.
  intros Hnet Hstatus Hjson Hres Hiter Hbefore Hbad.
  unfold update_dns_records. mstep.
  rewrite Hnet, Hstatus, Hjson. change (200 =? 200) with true.
  cbn beta iota delta [negb]. rewrite Hres, Hiter.
  rewrite collect_ids_app, Hbefore. unfold mbind, result_bind.
  cbn [collect_ids]. unfold mbind, result_bind. rewrite Hbad. reflexivity.
Qed.

Lemma unreadable_record_stops_update_witness :
  update_dns_records Cases.env_broken me "203.0.113.5" (world_of [])
  = (Err (KeyError "type"), sent (world_of []) [list_request me]).
Proof.
  apply (unreadable_record_stops_update Cases.env_broken me "203.0.113.5"
           (world_of []) (mk_response 200 (Json.dumps Cases.zone_broken))
           Cases.zone_broken
           (JArr [ record "r1" "A" "home.example.com" "198.51.100.7";
                   Cases.typeless;
                   record "r4" "A" "vpn.example.com" "198.51.100.7" ])
           [record "r1" "A" "home.example.com" "198.51.100.7"]
           Cases.typeless
           [record "r4" "A" "vpn.example.com" "198.51.100.7"]
           [JStr "r1"] (KeyError "type"));
    reflexivity.
Defined.

(** ** Whitespace and commas in the cache file *)

Lemma space_not_comma c : PyStr.is_space c = true -> Ascii.eqb c PyStr.comma = false.
Proof.
  intros H. destruct (Ascii.eqb_spec c PyStr.comma) as [-> | _];
    [discriminate H | reflexivity].
Qed.

Lemma lstrip_app_blank pre s : blank pre = true -> PyStr.lstrip (pre +:+ s) = PyStr.lstrip s.
Proof.
  induction pre as [|c pre IH]; [reflexivity|].
  intros H. apply andb_prop in H as [Hc Hpre].
  rewrite append_cons. cbn [PyStr.lstrip]. rewrite Hc. now apply IH.
Qed.

Lemma rstrip_blank s : blank s = true -> PyStr.rstrip s = "".
Proof.
  induction s as [|c s IH]; [reflexivity|].
  intros H. apply andb_prop in H as [Hc Hs].
  cbn [PyStr.rstrip]. now rewrite (IH Hs), Hc.
Qed.

Lemma rstrip_app_blank s post :
  blank post = true -> PyStr.rstrip (s +:+ post) = PyStr.rstrip s.
Proof.
  intros H. induction s as [|c s IH].
  - rewrite append_nil. now apply rstrip_blank.
  - rewrite append_cons. cbn [PyStr.rstrip]. now rewrite IH.
Qed.

Lemma lstrip_app_solid s post :
  blank post = true ->
  PyStr.rstrip (PyStr.lstrip (s +:+ post)) = PyStr.rstrip (PyStr.lstrip s).
Proof.
  intros H. induction s as [|c s IH].
  - rewrite append_nil. cbn [PyStr.lstrip PyStr.rstrip].
    apply rstrip_blank. fold (blank (PyStr.lstrip post)).
    clear -H. induction post as [|c post IH]; [reflexivity|].
    apply andb_prop in H as [Hc Hpost]. cbn [PyStr.lstrip]. rewrite Hc.
    now apply IH.
  - rewrite append_cons. cbn [PyStr.lstrip].
    destruct (PyStr.is_space c); [exact IH|].
    rewrite <- append_cons. now apply rstrip_app_blank.
Qed.

Lemma strip_surrounded pre s post :
  blank pre = true -> blank post = true ->
  PyStr.strip (pre +:+ s +:+ post) = PyStr.strip s.
Proof.
  intros Hpre Hpost. unfold PyStr.strip.
  rewrite lstrip_app_blank by exact Hpre. now apply lstrip_app_solid.
Qed.

Lemma translate_blank s : forall b,
  blank s = true -> blank (PyStr.translate b s) = true.
Proof.
  induction s as [|c s IH]; intros b H; [reflexivity|].
  apply andb_prop in H as [Hc Hs]. cbn [PyStr.translate].
  destruct (Ascii.eqb c PyStr.CR); [exact (IH true Hs)|].
  destruct (Ascii.eqb c PyStr.LF && b); [exact (IH false Hs)|].
  unfold blank. cbn [PyStr.all_chars]. rewrite Hc. exact (IH false Hs).
Qed.

(** A line feed swallowed after a carriage return would have been
    stripped. *)
Lemma lstrip_translate_state s b :
  PyStr.lstrip (PyStr.translate b s) = PyStr.lstrip (PyStr.translate false s).
Proof.
  destruct s as [|c s]; [reflexivity|]. cbn [PyStr.translate].
  destruct (Ascii.eqb c PyStr.CR); [reflexivity|].
  destruct b; [|reflexivity]. rewrite andb_true_r, andb_false_r.
  destruct (Ascii.eqb_spec c PyStr.LF) as [-> | _]; reflexivity.
Qed.

Lemma lstrip_translate_blank pre s : forall b,
  blank pre = true ->
  PyStr.lstrip (PyStr.translate b (pre +:+ s))
  = PyStr.lstrip (PyStr.translate false s).
Proof.
  induction pre as [|c pre IH]; intros b H.
  - rewrite append_nil. apply lstrip_translate_state.
  - apply andb_prop in H as [Hc Hpre]. rewrite append_cons.
    cbn [PyStr.translate].
    destruct (Ascii.eqb c PyStr.CR); [exact (IH true Hpre)|].
    destruct (Ascii.eqb c PyStr.LF && b); [exact (IH false Hpre)|].
    cbn [PyStr.lstrip]. rewrite Hc. exact (IH false Hpre).
Qed.

Lemma translate_app_blank s post :
  blank post = true ->
  forall b, exists post',
    blank post' = true
    /\ PyStr.translate b (s +:+ post) = PyStr.translate b s +:+ post'.
Proof.
  intros Hpost. induction s as [|c s IH]; intros b.
  - exists (PyStr.translate b post). split; [now apply translate_blank|].
    now rewrite append_nil.
  - rewrite append_cons. cbn [PyStr.translate].
    destruct (Ascii.eqb c PyStr.CR).
    { destruct (IH true) as (p & Hp & E). exists p. split; [exact Hp|].
      now rewrite E, append_cons. }
    destruct (Ascii.eqb c PyStr.LF && b).
    { destruct (IH false) as (p & Hp & E). exists p. now split. }
    destruct (IH false) as (p & Hp & E). exists p. split; [exact Hp|].
    now rewrite E, append_cons.
Qed.

Lemma strip_translate_surrounded pre s post :
  blank pre = true -> blank post = true ->
  PyStr.strip (PyStr.universal_newlines (pre +:+ s +:+ post))
  = PyStr.strip (PyStr.universal_newlines s).
Proof.
  intros Hpre Hpost. unfold PyStr.strip, PyStr.universal_newlines.
  rewrite lstrip_translate_blank by exact Hpre.
  destruct (translate_app_blank s post Hpost false) as (p & Hp & ->).
  now apply lstrip_app_solid.
Qed.

(** Whitespace around the content of the cache file, such as a final
    newline, does not change what [get_last_known_ip] returns. *)
Theorem cache_whitespace_is_ignored env s w pre content post :
  blank pre = true ->
  blank post = true ->
  fst (get_last_known_ip env s
         (stored w (ip_cache_file s) (pre +:+ content +:+ post)))
  = fst (get_last_known_ip env s (stored w (ip_cache_file s) content)).
Proof.
  intros Hpre Hpost. rewrite !get_last_known_ip_spec.
  cbn [fs stored ticks]. rewrite !lookup_insert_eq.
  rewrite (strip_translate_surrounded _ _ _ Hpre Hpost).
  destruct (PyStr.split PyStr.comma
              (PyStr.strip (PyStr.universal_newlines content)))
    as [|a [|b [|c l]]];
    try reflexivity.
  destruct (fromisoformat env b) as [[d|d o]|]; reflexivity.
Qed.

Lemma cache_whitespace_is_ignored_witness :
  fst (get_last_known_ip (env_of echo_first (ok "") (ok "")) me
         (stored (world_of []) cache
            (" " +:+ "203.0.113.5,2024-01-01T00:00:00" +:+ newline)))
  = Ok (Some "203.0.113.5", Some (mk_timedelta 0 43200 0)).
Proof.
  etransitivity.
  - apply (cache_whitespace_is_ignored (env_of echo_first (ok "") (ok "")) me
             (world_of []) " " "203.0.113.5,2024-01-01T00:00:00" newline);
      reflexivity.
  - reflexivity.
Defined.

Lemma count_commas_app a b :
  count_commas (a +:+ b) = (count_commas a + count_commas b)%nat.
Proof.
  induction a as [|c a IH]; [reflexivity|].
  rewrite append_cons. cbn [count_commas]. rewrite IH. lia.
Qed.

Lemma count_commas_lstrip s : count_commas (PyStr.lstrip s) = count_commas s.
Proof.
  induction s as [|c s IH]; [reflexivity|].
  cbn [PyStr.lstrip count_commas].
  destruct (PyStr.is_space c) eqn:Hc; [|reflexivity].
  now rewrite IH, (space_not_comma _ Hc).
Qed.

Lemma count_commas_rstrip s : count_commas (PyStr.rstrip s) = count_commas s.
Proof.
  induction s as [|c s IH]; [reflexivity|].
  cbn [PyStr.rstrip count_commas]. rewrite <- IH.
  destruct (PyStr.rstrip s) as [|c' r]; [|reflexivity].
  destruct (PyStr.is_space c) eqn:Hc; [|reflexivity].
  now rewrite (space_not_comma _ Hc).
Qed.

Lemma count_commas_translate s : forall b,
  count_commas (PyStr.translate b s) = count_commas s.
Proof.
  induction s as [|c s IH]; intros b; [reflexivity|].
  cbn [PyStr.translate].
  destruct (Ascii.eqb_spec c PyStr.CR) as [-> | _].
  { cbn [count_commas]. now rewrite IH. }
  destruct (Ascii.eqb_spec c PyStr.LF) as [-> | _].
  - destruct b; cbn [andb count_commas]; now rewrite IH.
  - cbn [andb count_commas]. now rewrite IH.
Qed.

Lemma length_split s :
  length (PyStr.split PyStr.comma s) = S (count_commas s).
Proof.
  induction s as [|c s IH]; [reflexivity|].
  cbn [PyStr.split count_commas].
  destruct (Ascii.eqb c PyStr.comma).
  - cbn [length]. now rewrite IH.
  - destruct (PyStr.split PyStr.comma s) as [|h t]; [discriminate IH|].
    exact IH.
Qed.

Lemma comma_free_count s : PyStr.comma_free s = false -> (1 <= count_commas s)%nat.
Proof.
  induction s as [|c s IH]; [discriminate|].
  cbn. destruct (Ascii.eqb c PyStr.comma); cbn; [lia | exact IH].
Qed.

(** An address that holds a comma cannot be read back: once
    [save_current_ip] has written it, the content of the cache file has
    more than two fields, and [get_last_known_ip] raises [ValueError]. *)
Theorem comma_in_address_breaks_cache env s w ip :
  PyStr.comma_free ip = false ->
  fst ((save_current_ip env s ip;; get_last_known_ip env s) w) = Err ValueError
  /\ forall parse,
       unreadable parse (ip +:+ "," +:+ isoformat (clock env (ticks w))) = true.
Proof.
  intros Hcomma.
  assert (Hlen :
    (3 <= length (PyStr.split PyStr.comma
                    (PyStr.strip
                       (PyStr.universal_newlines
                          (ip +:+ "," +:+ isoformat (clock env (ticks w)))))))%nat).
  { rewrite length_split. unfold PyStr.strip, PyStr.universal_newlines.
    rewrite count_commas_rstrip, count_commas_lstrip, count_commas_translate,
      count_commas_app.
    rewrite append_cons, append_nil. cbn [count_commas].
    change (Ascii.eqb "," PyStr.comma) with true. cbn beta iota.
    pose proof (comma_free_count _ Hcomma) as H.
    revert H.
    generalize (count_commas ip),
      (count_commas (isoformat (clock env (ticks w)))).
    intros n m Hn. lia. }
  split.
  - erewrite bind_ok by apply save_current_ip_spec.
    rewrite get_last_known_ip_spec. cbn [fs]. rewrite lookup_insert_eq.
    destruct (PyStr.split PyStr.comma _) as [|a [|b [|c l]]]; try reflexivity.
    cbn in Hlen. lia.
  - intros parse. unfold unreadable.
    destruct (PyStr.split PyStr.comma _) as [|a [|b [|c l]]]; try reflexivity.
    cbn in Hlen. lia.
Qed.

Lemma comma_in_address_breaks_cache_witness :
  fst ((save_current_ip (env_of Cases.echo_two (ok "") (ok "")) me
          "203.0.113.5, 198.51.100.1";;
        get_last_known_ip (env_of Cases.echo_two (ok "") (ok "")) me)
         (world_of []))
  = Err ValueError.
Proof.
  apply (comma_in_address_breaks_cache (env_of Cases.echo_two (ok "") (ok "")) me
           (world_of []) "203.0.113.5, 198.51.100.1").
  reflexivity.
Defined.

(** ** The address detected *)

Lemma for_services_stripped env l : forall w ip w1,
  for_services env l w = (Ok (Some ip), w1) ->
  exists body, ip = PyStr.strip body.
Proof.
  induction l as [|x l IH]; intros w ip w1; [discriminate|].
  simpl for_services. erewrite bind_ok by apply try_service_spec.
  destruct (net env (ip_request x)) as [r|e]; [|apply IH].
  destruct (status_code r =? 200); [|apply IH].
  intros [= <- _]. now exists (text r).
Qed.

Lemma detected_is_clean env w ip w1 :
  get_current_ip env w = (Ok (Some ip), w1) ->
  PyStr.no_leading_space ip = true
  /\ (ip = "" \/ PyStr.ends_solid ip = true).
Proof.
  intros H. apply for_services_stripped in H as [body ->]. split.
  - apply rstrip_no_lead, lstrip_no_lead.
  - apply rstrip_solid.
Qed.

(** Whatever the services answer, the address that [get_current_ip]
    returns neither begins nor ends with whitespace: stripping it again
    changes nothing. *)
Theorem detected_address_is_stripped env w ip w1 :
  get_current_ip env w = (Ok (Some ip), w1) ->
  PyStr.no_leading_space ip = true
  /\ (ip = "" \/ PyStr.ends_solid ip = true)
  /\ PyStr.strip ip = ip.
Proof.
  intros H. destruct (detected_is_clean env w ip w1 H) as [Hlead Hend].
  split; [exact Hlead|]. split; [exact Hend|].
  unfold PyStr.strip at 1. rewrite (lstrip_no_leading_space _ Hlead).
  destruct Hend as [-> | Hend]; [reflexivity | now apply rstrip_ends_solid].
Qed.

Lemma detected_address_is_stripped_witness :
  PyStr.strip "203.0.113.5" = "203.0.113.5".
Proof.
  apply (detected_address_is_stripped (env_of echo_third (ok "") (ok ""))
           (world_of []) "203.0.113.5"
           (sent (world_of []) (map ip_request ip_services))).
  reflexivity.
Defined.

(** ** A second run *)

(** After a run that has pushed and saved an address that holds neither a
    comma nor a carriage return, a run that detects the same address does
    nothing: it ends normally, sends no request to the provider, prints
    nothing and leaves the files as they are.  The timestamp written is
    read back by the later run's [fromisoformat] as the datetime it was
    written from. *)
Theorem pushed_address_is_not_pushed_again
    env env2 s w ip last et w1 w2 ids r w1' :
  get_current_ip env w = (Ok (Some ip), w1) ->
  ip <> "" ->
  get_last_known_ip env s w1 = (Ok (last, et), w2) ->
  last <> Some ip ->
  lists env s ids ->
  ids <> [] ->
  net env (batch_request s ip ids) = Ok r ->
  status_code r = 200 ->
  PyStr.comma_free ip = true ->
  PyStr.cr_free ip = true ->
  let w' := snd (run env s w) in
  let saved := clock env (pred (ticks w')) in
  fromisoformat env2 (isoformat saved) = Some (Naive saved) ->
  get_current_ip env2 w' = (Ok (Some ip), w1') ->
  let w'' := snd (run env2 s w') in
  fst (run env2 s w') = Ok tt
  /\ filter is_provider (trace w'') = filter is_provider (trace w')
  /\ stdout w'' = stdout w'
  /\ fs w'' = fs w'.
Proof.
  intros Hdetect Hip Hload Hdiff Hlists Hids Hnet Hstatus Hcomma Hcr w' saved
         Hparse Hdetect2 w''.
  destruct (run_body_changed _ _ _ _ _ _ _ _ Hdetect Hip Hload Hdiff)
    as (w3 & lines & Hbody & _).
  pose proof (run_changed_outcome env s w ip ids w3 Hbody Hlists Hids) as Hrun.
  cbv zeta in Hrun. rewrite Hnet, Hstatus in Hrun.
  change (200 =? 200) with true in Hrun. cbn beta iota in Hrun.
  rewrite save_current_ip_spec in Hrun. cbn [snd ticks sent] in Hrun.
  assert (Hw' : w' = snd (run env s w)) by reflexivity.
  rewrite Hrun in Hw'. cbn [snd] in Hw'.
  assert (Hsaved : saved = clock env (ticks w3))
    by (subst saved; rewrite Hw'; reflexivity).
  rewrite Hsaved in Hparse.
  destruct (detected_is_clean env w ip w1 Hdetect) as [Hlead _].
  destruct (get_current_ip_frame _ _ _ _ Hdetect2) as [k2 Hw1'].
  assert (Hload2 :
    get_last_known_ip env2 s w1'
    = (Ok (Some ip, Some (Datetime.sub (clock env2 (ticks w1')) (clock env (ticks w3)))),
       ticked w1' 1)).
  { rewrite get_last_known_ip_spec.
    assert (Hfile : fs w1' !! ip_cache_file s
                    = Some (ip +:+ "," +:+ isoformat (clock env (ticks w3))))
      by (rewrite Hw1', Hw'; cbn [fs sent]; apply lookup_insert_eq).
    rewrite Hfile. rewrite record_as_written by exact Hcr.
    rewrite record_fields;
      auto using isoformat_comma_free, isoformat_ends_solid.
    now rewrite Hparse. }
  subst w''.
  rewrite (run_of_ok _ _ _ _ (run_body_unchanged _ _ _ _ _ _ _ Hdetect2 Hip Hload2)).
  rewrite Hw1'. cbn [fst snd fs trace ticks stdout sent ticked].
  rewrite filter_app, echo_not_provider, app_nil_r. repeat split.
Qed.

Lemma pushed_address_is_not_pushed_again_witness :
  let env := env_of echo_third (ok (Json.dumps zone)) (ok "{}") in
  let w := world_of [(cache, "203.0.113.4,2023-12-31T00:00:00.500000")] in
  let w' := snd (run env me w) in
  let w'' := snd (run env me w') in
  fst (run env me w') = Ok tt
  /\ filter is_provider (trace w'') = filter is_provider (trace w')
  /\ stdout w'' = stdout w'
  /\ fs w'' = fs w'.
Proof.
  intros env w w' w''.
  apply (pushed_address_is_not_pushed_again env env me w "203.0.113.5"
           (Some "203.0.113.4") (Some (mk_timedelta 1 43199 500000))
           (sent w (map ip_request ip_services))
           (ticked (sent w (map ip_request ip_services)) 1)
           [JStr "r1"; JStr "r4"] (mk_response 200 "{}")
           (sent w' (map ip_request ip_services))).
  - reflexivity.
  - discriminate.
  - reflexivity.
  - discriminate.
  - exists (mk_response 200 (Json.dumps zone)), zone.
    eexists. eexists. repeat split; reflexivity.
  - discriminate.
  - reflexivity.
  - reflexivity.
  - reflexivity.
  - reflexivity.
  - reflexivity.
  - vm_compute. reflexivity.
Defined.

(** ** A cache file that cannot be loaded *)

Lemma run_body_unreadable env s w content :
  fs w !! ip_cache_file s = Some content ->
  unreadable (fromisoformat env) content = true ->
  exists e wb k,
    run_body env s w = (Err e, wb)
    /\ fs wb = fs w /\ trace wb = trace w ++ echo k /\ stdout wb = stdout w.
Proof.
  intros Hfile Hbad.
  destruct (get_current_ip env w) as [r w1] eqn:Hdetect.
  destruct (get_current_ip_frame _ _ _ _ Hdetect) as [k Hw1].
  destruct r as [[ip|]|e].
  - destruct (String.eqb ip "") eqn:Hip.
    + apply String.eqb_eq in Hip. subst ip.
      exists (Exception_ "Could not determine current IP address"), w1, k.
      rewrite (run_body_undetected env s w w1 (or_intror Hdetect)).
      subst w1. repeat split.
    + assert (Hload : exists e wb,
                 get_last_known_ip env s w1 = (Err e, wb)
                 /\ (wb = w1 \/ wb = ticked w1 1)).
      { rewrite get_last_known_ip_spec.
        replace (fs w1) with (fs w) by now subst w1.
        rewrite Hfile. unfold unreadable in Hbad.
        destruct (PyStr.split PyStr.comma
                    (PyStr.strip (PyStr.universal_newlines content)))
          as [|a [|b [|c l]]]; eauto.
        destruct (fromisoformat env b) as [[d|d o]|];
          [discriminate Hbad | eauto | eauto]. }
      destruct Hload as (e & wb & Hload & Hwb).
      exists e, wb, k. split.
      * unfold run_body. erewrite bind_ok by exact Hdetect. cbn beta iota.
        rewrite Hip. now erewrite bind_err by exact Hload.
      * destruct Hwb as [-> | ->]; subst w1; repeat split.
  - exists (Exception_ "Could not determine current IP address"), w1, k.
    rewrite (run_body_undetected env s w w1 (or_introl Hdetect)).
    subst w1. repeat split.
  - exists e, w1, k. unfold run_body.
    erewrite bind_err by exact Hdetect. subst w1. repeat split.
Qed.

Lemma run_unreadable env s w content :
  fs w !! ip_cache_file s = Some content ->
  unreadable (fromisoformat env) content = true ->
  let w' := snd (run env s w) in
  fs w' = fs w
  /\ filter is_provider (trace w') = filter is_provider (trace w)
  /\ length (filter is_error_line (stdout w'))
     = S (length (filter is_error_line (stdout w))).
Proof.
  intros Hfile Hbad w'.
  destruct (run_body_unreadable env s w content Hfile Hbad)
    as (e & wb & k & Hbody & Hfs & Htrace & Hout).
  subst w'. rewrite (run_of_err _ _ _ _ _ Hbody).
  cbn [snd fs trace stdout printed ticked].
  rewrite Hfs, Htrace, Hout. unfold echo.
  rewrite !filter_app, echo_not_provider, app_nil_r, length_app.
  rewrite filter_cons_True by exact I. rewrite filter_nil.
  repeat split. cbn [length]. lia.
Qed.

(** A cache file that exists and cannot be loaded (its content does not
    split into two fields, or its second field is not read as a naive
    datetime) is never repaired: each run prints one error, sends no
    request to the provider and leaves the files as they are, so every
    later run ends the same way. *)
Theorem unreadable_cache_blocks_every_run s content envs : forall w,
  fs w !! ip_cache_file s = Some content ->
  Forall (fun env => unreadable (fromisoformat env) content = true) envs ->
  let w' := runs envs s w in
  fs w' = fs w
  /\ filter is_provider (trace w') = filter is_provider (trace w)
  /\ length (filter is_error_line (stdout w'))
     = (length envs + length (filter is_error_line (stdout w)))%nat.
Proof.
  induction envs as [|env envs IH]; intros w Hfile Hall; [repeat split|].
  apply Forall_cons in Hall as [Hbad Hall].
  destruct (run_unreadable env s w content Hfile Hbad) as (Hfs & Htrace & Hout).
  destruct (IH (snd (run env s w))) as (Hfs' & Htrace' & Hout');
    [now rewrite Hfs | exact Hall |].
  cbn [runs length]. cbv zeta in *.
  rewrite Hfs', Htrace', Hout', Hfs, Htrace, Hout. repeat split. lia.
Qed.

Lemma unreadable_cache_blocks_every_run_witness :
  let env := env_of Cases.echo_two (ok (Json.dumps zone)) (ok "{}") in
  let w := world_of [(cache, "203.0.113.5, 198.51.100.1,2024-01-01T12:00:02")] in
  let w' := runs [env; env; env] me w in
  fs w' = fs w
  /\ filter is_provider (trace w') = []
  /\ length (filter is_error_line (stdout w')) = 3%nat.
Proof.
  intros env w w'.
  apply (unreadable_cache_blocks_every_run me
           "203.0.113.5, 198.51.100.1,2024-01-01T12:00:02" [env; env; env] w).
  - reflexivity.
  - repeat constructor.
Defined.

(** ** Every run, whatever the outside answers *)

Lemma update_outcome env s ip w :
  (exists e, update_dns_records env s ip w = (Err e, sent w [list_request s]))
  \/ (exists ids, lists env s ids /\ ids <> []).
Proof.
  destruct (net env (list_request s)) as [r|e] eqn:Hnet.
  - destruct (Z.eq_dec (status_code r) 200) as [Hstatus|Hstatus].
    + destruct (json_loads env (text r)) as [body|] eqn:Hjson.
      * destruct (Py.getitem body "result") as [records|e] eqn:Hres.
        -- destruct (Py.iter records) as [items|e] eqn:Hiter.
           ++ destruct (collect_ids (domains s) items []) as [ids|e] eqn:Hids.
              ** assert (Hlists : lists env s ids)
                   by (exists r, body, records, items; auto 10).
                 destruct ids as [|id ids].
                 --- left. eexists.
                     now rewrite (update_listed env s ip w [] Hlists).
                 --- right. exists (id :: ids). split; [exact Hlists|].
                     discriminate.
              ** left. eexists. unfold update_dns_records. mstep.
                 rewrite Hnet, Hstatus, Hjson. change (200 =? 200) with true.
                 cbn beta iota delta [negb]. now rewrite Hres, Hiter, Hids.
           ++ left. eexists. unfold update_dns_records. mstep.
              rewrite Hnet, Hstatus, Hjson. change (200 =? 200) with true.
              cbn beta iota delta [negb]. now rewrite Hres, Hiter.
        -- left. eexists. unfold update_dns_records. mstep.
           rewrite Hnet, Hstatus, Hjson. change (200 =? 200) with true.
           cbn beta iota delta [negb]. now rewrite Hres.
      * left. eexists. unfold update_dns_records. mstep.
        rewrite Hnet, Hstatus, Hjson. reflexivity.
    + left. eexists. now rewrite (update_read_fails env s ip w r Hnet Hstatus).
  - left. eexists. unfold update_dns_records. mstep. now rewrite Hnet.
Qed.

Lemma run_body_quiet_cases env s w :
  (exists ip last et w1 w2,
     get_current_ip env w = (Ok (Some ip), w1)
     /\ ip <> ""
     /\ get_last_known_ip env s w1 = (Ok (last, et), w2)
     /\ last <> Some ip)
  \/ (exists k,
        trace (snd (run_body env s w)) = trace w ++ echo k
        /\ fs (snd (run_body env s w)) = fs w).
Proof.
  destruct (get_current_ip env w) as [r w1] eqn:Hdetect.
  destruct (get_current_ip_frame _ _ _ _ Hdetect) as [k Hw1].
  destruct r as [[ip|]|e].
  - destruct (String.eqb ip "") eqn:Hip.
    + apply String.eqb_eq in Hip. subst ip. right. exists k.
      rewrite (run_body_undetected env s w w1 (or_intror Hdetect)).
      subst w1. split; reflexivity.
    + apply String.eqb_neq in Hip.
      destruct (get_last_known_ip env s w1) as [[[last et]|e] w2] eqn:Hload.
      * destruct (decide (last = Some ip)) as [-> | Hdiff].
        -- right. exists k.
           rewrite (run_body_unchanged _ _ _ _ _ _ _ Hdetect Hip Hload).
           destruct (get_last_known_ip_world env s w1) as [H | H];
             rewrite Hload in H; cbn [snd] in H; subst w2 w1;
             split; reflexivity.
        -- left. exists ip, last, et, w1, w2. auto.
      * right. exists k. unfold run_body.
        erewrite bind_ok by exact Hdetect. cbn beta iota.
        rewrite (eqb_empty_false _ Hip).
        erewrite bind_err by exact Hload.
        destruct (get_last_known_ip_world env s w1) as [H | H];
          rewrite Hload in H; cbn [snd] in H; subst w2 w1;
          split; reflexivity.
  - right. exists k.
    rewrite (run_body_undetected env s w w1 (or_introl Hdetect)).
    subst w1. split; reflexivity.
  - right. exists k. unfold run_body. erewrite bind_err by exact Hdetect.
    subst w1. split; reflexivity.
Qed.

Lemma run_fs env s w :
  fs (snd (run env s w)) = fs (snd (run_body env s w)).
Proof.
  destruct (run_body env s w) as [[[]|e] wb] eqn:Hbody.
  - now rewrite (run_of_ok _ _ _ _ Hbody).
  - now rewrite (run_of_err _ _ _ _ _ Hbody).
Qed.

(** The shape of every run: requests to the first [k] IP-echo services,
    then nothing, or the listing alone, or the listing and one batch
    update; the files change only in the last case, and only when the
    batch update is answered with status 200. *)
Lemma run_shape env s w :
  let w' := snd (run env s w) in
  exists k,
    (trace w' = trace w ++ echo k /\ fs w' = fs w)
    \/ (trace w' = trace w ++ echo k ++ [list_request s] /\ fs w' = fs w)
    \/ (exists ip ids,
          fst (get_current_ip env w) = Ok (Some ip)
          /\ trace w' = trace w ++ echo k ++ [list_request s; batch_request s ip ids]
          /\ (fs w' = fs w
              \/ (exists r,
                    net env (batch_request s ip ids) = Ok r
                    /\ status_code r = 200
                    /\ fs w'
                       = <[ip_cache_file s :=
                             ip +:+ "," +:+ isoformat (clock env (pred (ticks w')))]>
                           (fs w)))).
Proof.
  intros w'. subst w'.
  destruct (run_body_quiet_cases env s w)
    as [(ip & last & et & w1 & w2 & Hdetect & Hip & Hload & Hdiff)
       | (k & Htrace & Hfs)].
  - destruct (run_body_changed _ _ _ _ _ _ _ _ Hdetect Hip Hload Hdiff)
      as (w3 & lines & Hbody & Hfs3 & Htrace3 & _).
    destruct (get_current_ip_frame _ _ _ _ Hdetect) as [k Hw1].
    assert (Htr : trace w3 = trace w ++ echo k)
      by (rewrite Htrace3, Hw1; reflexivity).
    exists k.
    destruct (update_outcome env s ip w3) as [[e Hup] | (ids & Hlists & Hids)].
    + right. left.
      erewrite run_of_err
        by (rewrite Hbody; erewrite bind_err by exact Hup; reflexivity).
      cbn [snd fs trace printed ticked sent].
      now rewrite Htr, Hfs3, <- app_assoc.
    + right. right. exists ip, ids.
      rewrite (run_changed_outcome env s w ip ids w3 Hbody Hlists Hids).
      rewrite Hdetect. split; [reflexivity|]. cbv zeta.
      destruct (net env (batch_request s ip ids)) as [r|e];
        [destruct (status_code r =? 200) eqn:Hstatus|];
        rewrite ?save_current_ip_spec;
        cbn [snd fs trace ticks printed ticked sent Nat.pred];
        rewrite Htr, Hfs3, <- app_assoc; (split; [reflexivity|]).
      * right. exists r. apply Z.eqb_eq in Hstatus. auto.
      * now left.
      * now left.
  - exists k. left. now rewrite run_trace, run_fs.
Qed.

(** In every run the requests are sent in this order: at most three
    requests to the IP-echo services, without headers, then at most one
    listing request and, only after it, at most one batch update for the
    address detected.  The token is sent to the provider only. *)
Theorem run_requests_shape env s w :
  exists k provider,
    trace (snd (run env s w)) = trace w ++ echo k ++ provider
    /\ (length (echo k) <= 3)%nat
    /\ Forall (fun r => exists service, r = GET (IpService service) None (Some 10))
         (echo k)
    /\ (provider = []
        \/ provider = [list_request s]
        \/ exists ip ids,
             fst (get_current_ip env w) = Ok (Some ip)
             /\ provider = [list_request s; batch_request s ip ids]).
Proof.
  destruct (run_shape env s w) as [k Hshape]. cbv zeta in Hshape.
  assert (Hlen : (length (echo k) <= 3)%nat).
  { unfold echo. rewrite length_map, length_take. cbn. lia. }
  assert (Hecho : Forall (fun r => exists service,
                            r = GET (IpService service) None (Some 10)) (echo k)).
  { unfold echo. apply Forall_forall. intros r Hr.
    apply list_elem_of_In, in_map_iff in Hr as (service & <- & _).
    now exists service. }
  destruct Hshape as [[Htrace _] | [[Htrace _] | (ip & ids & Hip & Htrace & _)]].
  - exists k, []. rewrite app_nil_r.
    split; [exact Htrace|]. split; [exact Hlen|]. split; [exact Hecho|].
    now left.
  - exists k, [list_request s].
    split; [exact Htrace|]. split; [exact Hlen|]. split; [exact Hecho|].
    right. now left.
  - exists k, [list_request s; batch_request s ip ids].
    split; [exact Htrace|]. split; [exact Hlen|]. split; [exact Hecho|].
    right. right. now exists ip, ids.
Qed.

(** A run writes no file but the cache file, and writes the cache file only
    after a batch update that the provider has answered with status 200;
    what it writes is the address detected and the last reading of the
    clock. *)
Theorem run_writes_only_after_accept env s w :
  let w' := snd (run env s w) in
  (fs w' = fs w
   \/ exists ip ids r,
        fst (get_current_ip env w) = Ok (Some ip)
        /\ In (batch_request s ip ids) (trace w')
        /\ net env (batch_request s ip ids) = Ok r
        /\ status_code r = 200
        /\ fs w'
           = <[ip_cache_file s :=
                 ip +:+ "," +:+ isoformat (clock env (pred (ticks w')))]> (fs w))
  /\ (forall path, path <> ip_cache_file s -> fs w' !! path = fs w !! path).
Proof.
  intros w'. destruct (run_shape env s w) as [k Hshape]. fold w' in Hshape.
  assert (Hcases :
    fs w' = fs w
    \/ exists ip ids r,
         fst (get_current_ip env w) = Ok (Some ip)
         /\ In (batch_request s ip ids) (trace w')
         /\ net env (batch_request s ip ids) = Ok r
         /\ status_code r = 200
         /\ fs w'
            = <[ip_cache_file s :=
                  ip +:+ "," +:+ isoformat (clock env (pred (ticks w')))]> (fs w)).
  { destruct Hshape as [[_ Hfs] | [[_ Hfs] | (ip & ids & Hip & Htrace & Hfs)]];
      [now left | now left |].
    destruct Hfs as [Hfs | (r & Hnet & Hstatus & Hfs)]; [now left|].
    right. exists ip, ids, r. repeat split; try assumption.
    rewrite Htrace. apply in_or_app. right. apply in_or_app. right.
    right. now left. }
  split; [exact Hcases|].
  intros path Hpath.
  destruct Hcases as [-> | (ip & ids & r & _ & _ & _ & _ & ->)]; [reflexivity|].
  now apply lookup_insert_ne.
Qed.

Lemma run_writes_only_after_accept_witness :
  let env := env_of echo_third (ok (Json.dumps zone)) (ok "{}") in
  let w := world_of [(config_file, Json.dumps config)] in
  fs (snd (run env me w)) !! config_file = Some (Json.dumps config).
Proof.
  intros env w.
  rewrite (proj2 (run_writes_only_after_accept env me w) config_file).
  - reflexivity.
  - discriminate.
Defined.

(** ** The order of events *)

Lemma preserves_ret {A} (a : A) : preserves (mret a).
Proof. intros w H. exact H. Qed.

Lemma preserves_raise {A} e : preserves (@raise A e).
Proof. intros w H. exact H. Qed.

Lemma preserves_lift {A} (r : result A) : preserves (lift r).
Proof. intros w H. exact H. Qed.

Lemma preserves_bind {A B} (m : M A) (k : A -> M B) :
  preserves m -> (forall a, preserves (k a)) -> preserves (m ≫= k).
Proof.
  intros Hm Hk w Hw. specialize (Hm w Hw). unfold mbind, M_bind.
  destruct (m w) as [[a|e] w1]; [now apply Hk | exact Hm].
Qed.

Lemma preserves_catch {A} (m : M A) h :
  preserves m -> (forall e, preserves (h e)) -> preserves (catch m h).
Proof.
  intros Hm Hh w Hw. specialize (Hm w Hw). unfold catch.
  destruct (m w) as [[a|e] w1]; [exact Hm | now apply Hh].
Qed.

Lemma preserves_now env : preserves (now env).
Proof. intros w H. exact H. Qed.

Lemma preserves_read_file path : preserves (read_file path).
Proof. intros w H. unfold read_file. now destruct (fs w !! path). Qed.

Lemma preserves_write_file path content : preserves (write_file path content).
Proof. intros w H. exact H. Qed.

Lemma preserves_http env r : preserves (http env r).
Proof.
  intros w [Ht Ho]. split; cbn [snd http trace stdout events].
  - unfold requests_of. rewrite flat_map_app, Ht. reflexivity.
  - unfold lines_of. rewrite flat_map_app, Ho. cbn. now rewrite app_nil_r.
Qed.

Lemma preserves_print l : preserves (print l).
Proof.
  intros w [Ht Ho]. split; cbn [snd print trace stdout events].
  - unfold requests_of. rewrite flat_map_app, Ht. cbn. now rewrite app_nil_r.
  - unfold lines_of. rewrite flat_map_app, Ho. reflexivity.
Qed.

Ltac preserved :=
  unfold parse_json, get_now_str;
  repeat first
    [ apply preserves_ret | apply preserves_raise | apply preserves_lift
    | apply preserves_now | apply preserves_read_file
    | apply preserves_write_file | apply preserves_http
    | apply preserves_print
    | apply preserves_bind; [|intros ?]
    | apply preserves_catch; [|intros ?]
    | match goal with
      | |- preserves (match ?x with _ => _ end) => destruct x
      end ].

Lemma preserves_for_services env l : preserves (for_services env l).
Proof.
  induction l as [|x l IH]; cbn [for_services]; [apply preserves_ret|].
  apply preserves_bind; [unfold try_service; preserved|].
  intros [ip|]; [apply preserves_ret | exact IH].
Qed.

Lemma preserves_run env s : preserves (run env s).
Proof.
  unfold run, run_body, log_error. apply preserves_catch; [|intros e; preserved].
  apply preserves_bind; [apply preserves_for_services|].
  intros [ip|]; [|apply preserves_raise].
  destruct (String.eqb ip ""); [apply preserves_raise|].
  apply preserves_bind;
    [unfold get_last_known_ip; preserved|].
  intros [last et]. destruct (str_ne (Some ip) last); [|apply preserves_ret].
  unfold log_change, update_dns_records, save_current_ip. preserved.
Qed.

(** The three logs stay in step over the whole program: what [trace] and
    [stdout] hold after [main] are the requests and the lines of
    [events]. *)
Lemma preserves_main env : preserves (main env).
Proof.
  unfold main. apply preserves_bind; [unfold __init__; preserved|].
  intros ddns. apply preserves_run.
Qed.

(** ** The line that announces a change *)

Lemma run_body_announces env s w ip last et w1 w2 :
  get_current_ip env w = (Ok (Some ip), w1) ->
  ip <> "" ->
  get_last_known_ip env s w1 = (Ok (last, et), w2) ->
  last <> Some ip ->
  exists w3 k,
    run_body env s w
    = (update_dns_records env s ip;; save_current_ip env s ip) w3
    /\ stdout w3 = stdout w ++ announced (clock env (ticks w2)) ip last et
    /\ events w3
       = events w ++ map Sent (echo k)
         ++ map Printed (announced (clock env (ticks w2)) ip last et).
Proof.
  intros Hdetect Hip Hload Hdiff.
  destruct (get_current_ip_frame _ _ _ _ Hdetect) as [k Hw1].
  destruct (get_last_known_ip_frame _ _ _ _ _ _ Hload) as [Hw2 Hpair].
  assert (Hout2 : stdout w2 = stdout w)
    by (destruct Hw2 as [-> | ->]; subst w1; reflexivity).
  assert (Hev2 : events w2 = events w ++ map Sent (echo k))
    by (destruct Hw2 as [-> | ->]; subst w1; reflexivity).
  assert (Hlog : exists w3,
             log_change env ip last et w2 = (Ok tt, w3)
             /\ stdout w3 = stdout w2 ++ announced (clock env (ticks w2)) ip last et
             /\ events w3
                = events w2
                  ++ map Printed (announced (clock env (ticks w2)) ip last et)).
  { destruct Hpair as [[-> ->] | (l & e & -> & ->)]; unfold log_change, announced.
    - exists w2. cbn [map]. now rewrite !app_nil_r.
    - destruct (String.eqb l "").
      + exists w2. cbn [map]. now rewrite !app_nil_r.
      + eexists. repeat split; reflexivity. }
  destruct Hlog as (w3 & Hlog & Hout3 & Hev3). exists w3, k. split; [|split].
  - unfold run_body. erewrite bind_ok by exact Hdetect. cbn beta iota.
    rewrite (eqb_empty_false _ Hip).
    erewrite bind_ok by exact Hload. cbn beta iota.
    rewrite (str_ne_true _ _ Hdiff).
    erewrite bind_ok by exact Hlog. reflexivity.
  - now rewrite Hout3, Hout2.
  - now rewrite Hev3, Hev2, <- app_assoc.
Qed.

(** When the address has changed, the change is announced before the
    provider is asked, and whatever the provider answers: one INFO line
    with the previous address, the new one and the time since the previous
    one was saved, when there is a previous address; no INFO line on a
    first run, where there is none.  In the order in which they happen, a
    run sends its requests to the IP-echo services, prints that line, sends
    its one or two requests to the provider, the listing first, and prints
    at most one error line.  The only other line a run can print is that
    error line, after the INFO line. *)
Theorem change_is_announced env s w ip last et w1 w2 :
  get_current_ip env w = (Ok (Some ip), w1) ->
  ip <> "" ->
  get_last_known_ip env s w1 = (Ok (last, et), w2) ->
  last <> Some ip ->
  exists k asked errors,
    events (snd (run env s w))
    = events w ++ map Sent (echo k)
      ++ map Printed (announced (clock env (ticks w2)) ip last et)
      ++ map Sent asked ++ map Printed errors
    /\ (asked = [list_request s]
        \/ exists ids, asked = [list_request s; batch_request s ip ids])
    /\ Forall (fun r => is_provider r = true) asked
    /\ Forall (fun r => is_provider r = false) (echo k)
    /\ stdout (snd (run env s w))
       = stdout w ++ announced (clock env (ticks w2)) ip last et ++ errors
    /\ Forall (fun l => is_error_line l = true) errors
    /\ (length errors <= 1)%nat
    /\ (last = None -> announced (clock env (ticks w2)) ip last et = []).
Proof.
  intros Hdetect Hip Hload Hdiff.
  destruct (run_body_announces _ _ _ _ _ _ _ _ Hdetect Hip Hload Hdiff)
    as (w3 & k & Hbody & Hout3 & Hev3).
  pose proof (update_stdout env s ip w3) as Hup.
  assert (Hasked : exists asked,
             snd (update_dns_records env s ip w3) = sent w3 asked
             /\ (asked = [list_request s]
                 \/ exists ids, asked = [list_request s; batch_request s ip ids])
             /\ Forall (fun r => is_provider r = true) asked).
  { destruct (update_frame env s ip w3) as [H | [ids H]].
    - exists [list_request s]. split; [exact H|]. split; [now left|].
      repeat constructor.
    - exists [list_request s; batch_request s ip ids]. split; [exact H|].
      split; [right; now exists ids|]. repeat constructor. }
  destruct Hasked as (asked & Hw4 & Hshape & Hprov).
  assert (Hecho : Forall (fun r => is_provider r = false) (echo k)).
  { unfold echo. generalize (take k ip_services). intros l.
    induction l as [|x l IH]; constructor; [reflexivity | exact IH]. }
  exists k, asked.
  destruct (update_dns_records env s ip w3) as [[b|e] w4] eqn:E;
    cbn [snd] in Hup, Hw4.
  - exists []. cbn [map]. rewrite !app_nil_r.
    erewrite run_of_ok
      by (rewrite Hbody; erewrite bind_ok by exact E; apply save_current_ip_spec).
    cbn [snd stdout events]. rewrite Hup, Hout3, Hw4. cbn [events sent].
    rewrite Hev3, <- !app_assoc.
    repeat split; try assumption; [constructor | cbn; lia | now intros ->].
  - eexists [_].
    erewrite run_of_err
      by (rewrite Hbody; erewrite bind_err by exact E; reflexivity).
    cbn [snd stdout events printed ticked]. rewrite Hup, Hout3, Hw4.
    cbn [events sent]. rewrite Hev3, <- !app_assoc.
    repeat split; try assumption;
      [repeat constructor | cbn; lia | now intros ->].
Qed.

Lemma change_is_announced_witness :
  let env := env_of echo_first (status 500 "Internal Server Error") (ok "{}") in
  let w := world_of [(cache, "203.0.113.4,2024-01-01T00:00:00")] in
  exists k asked errors,
    events (snd (run env me w))
    = map Sent (echo k)
      ++ [Printed (InfoLine (tick_clock 1) "203.0.113.4" "203.0.113.5"
                     (mk_timedelta 0 43200 0))]
      ++ map Sent asked ++ map Printed errors
    /\ (asked = [list_request me]
        \/ exists ids, asked = [list_request me; batch_request me "203.0.113.5" ids])
    /\ (length errors <= 1)%nat.
Proof.
  intros env w.
  destruct (change_is_announced env me w "203.0.113.5"
              (Some "203.0.113.4") (Some (mk_timedelta 0 43200 0))
              (sent w [ip_request "https://ifconfig.me/ip"])
              (ticked (sent w [ip_request "https://ifconfig.me/ip"]) 1))
    as (k & asked & errors & Hev & Hasked & _ & _ & _ & _ & Hlen & _).
  - reflexivity.
  - discriminate.
  - reflexivity.
  - discriminate.
  - exists k, asked, errors. split; [exact Hev|]. split; [exact Hasked | exact Hlen].
Defined.

(** ** The constructor *)

(** The constructor checks [api_token], [zone_id] and [domains] in this
    order and stops at the first that fails: a missing field raises its
    [KeyError], a field whose value is false in Python (the empty string,
    list or object, but also 0, false and null) raises the error that
    names it.  It succeeds exactly when the three fields are present with
    true values. *)
Theorem init_checks_fields_in_order env path w content config :
  fs w !! path = Some content ->
  json_loads env (PyStr.universal_newlines content) = Some config ->
  let outcome := fst (__init__ env path w) in
  ((exists u, outcome = Ok u)
   <-> (exists a z d,
          Py.getitem config "api_token" = Ok a /\ Py.truthy a = true
          /\ Py.getitem config "zone_id" = Ok z /\ Py.truthy z = true
          /\ Py.getitem config "domains" = Ok d /\ Py.truthy d = true))
  /\ (forall e, Py.getitem config "api_token" = Err e -> outcome = Err e)
  /\ (forall a,
        Py.getitem config "api_token" = Ok a -> Py.truthy a = false ->
        outcome = Err (Exception_ "API token is required"))
  /\ (forall a,
        Py.getitem config "api_token" = Ok a -> Py.truthy a = true ->
        (forall e, Py.getitem config "zone_id" = Err e -> outcome = Err e)
        /\ (forall z,
              Py.getitem config "zone_id" = Ok z -> Py.truthy z = false ->
              outcome = Err (Exception_ "Zone ID is required"))
        /\ (forall z,
              Py.getitem config "zone_id" = Ok z -> Py.truthy z = true ->
              (forall e, Py.getitem config "domains" = Err e -> outcome = Err e)
              /\ (forall d,
                    Py.getitem config "domains" = Ok d -> Py.truthy d = false ->
                    outcome = Err (Exception_ "At least one domain is required")))).
Proof.
  intros Hfile Hjson outcome. subst outcome.
  rewrite (init_loaded env path w content config Hfile Hjson). cbn [fst].
  unfold mbind, result_bind.
  split; [split|].
  - intros [u Hu].
    destruct (Py.getitem config "api_token") as [a|e]; [|discriminate].
    destruct (Py.truthy a) eqn:Ha; [|discriminate]. cbn [negb] in Hu.
    destruct (Py.getitem config "zone_id") as [z|e]; [|discriminate].
    destruct (Py.truthy z) eqn:Hz; [|discriminate]. cbn [negb] in Hu.
    destruct (Py.getitem config "domains") as [d|e]; [|discriminate].
    destruct (Py.truthy d) eqn:Hd; [|discriminate].
    exists a, z, d. auto 10.
  - intros (a & z & d & -> & -> & -> & -> & -> & ->). cbn [negb]. eauto.
  - split; [now intros e ->|].
    split; [now intros a -> ->|].
    intros a -> ->. cbn [negb].
    split; [now intros e ->|].
    split; [now intros z -> ->|].
    intros z -> ->. cbn [negb].
    split; [now intros e ->|].
    now intros d -> ->.
Qed.

Lemma init_checks_fields_in_order_witness :
  fst (__init__ Cases.env_config config_file
         (world_of [(config_file, Json.dumps Cases.config_zero_zone)]))
  = Err (Exception_ "Zone ID is required").
Proof.
  pose (w := world_of [(config_file, Json.dumps Cases.config_zero_zone)]).
  destruct (init_checks_fields_in_order Cases.env_config config_file w
              (Json.dumps Cases.config_zero_zone) Cases.config_zero_zone
              eq_refl eq_refl)
    as (_ & _ & _ & Hzone).
  destruct (Hzone (JStr "t0k3n") eq_refl eq_refl) as (_ & Hfalse & _).
  exact (Hfalse (JInt 0) eq_refl eq_refl).
Defined.

(** ** The first run of the program *)

Lemma main_of_init_ok env w u :
  __init__ env (default_config_file env) w = (Ok u, w) ->
  main env w = run env u w.
Proof. intros H. unfold main. now erewrite bind_ok by exact H. Qed.

(** The whole program on a first run: with a configuration whose three
    fields have true values, no cache file, an address detected, a listing
    with at least one matching record and a batch update answered with
    status 200, the program ends normally, prints nothing, has sent the
    listing and the batch update to the fixed address of the provider with
    the zone and the token of the configuration, and has created
    [last_ip.txt] beside the program with the address and the only reading
    of the clock. *)
Theorem first_run_creates_cache env w content config a z d ip w1 ids r :
  fs w !! default_config_file env = Some content ->
  json_loads env (PyStr.universal_newlines content) = Some config ->
  Py.getitem config "api_token" = Ok a -> Py.truthy a = true ->
  Py.getitem config "zone_id" = Ok z -> Py.truthy z = true ->
  Py.getitem config "domains" = Ok d -> Py.truthy d = true ->
  let u := {| api_token := a; zone_id := z; domains := d;
              ip_cache_file := wd env +:+ "/last_ip.txt";
              cf_api_base := "https://api.cloudflare.com/client/v4" |} in
  fs w !! (wd env +:+ "/last_ip.txt") = None ->
  get_current_ip env w = (Ok (Some ip), w1) ->
  ip <> "" ->
  lists env u ids ->
  ids <> [] ->
  net env (batch_request u ip ids) = Ok r ->
  status_code r = 200 ->
  main env w
  = (Ok tt,
     {| fs := <[wd env +:+ "/last_ip.txt" :=
                  ip +:+ "," +:+ isoformat (clock env (ticks w))]> (fs w);
        ticks := S (ticks w);
        trace := trace w1 ++ [list_request u; batch_request u ip ids];
        stdout := stdout w;
        events := events w1
                  ++ [Sent (list_request u); Sent (batch_request u ip ids)] |})
  /\ list_request u
     = GET (DnsRecords "https://api.cloudflare.com/client/v4" z)
           (Some {| bearer := a; content_type := "application/json" |}) None.
Proof.
  intros Hfile Hjson Ha Hta Hz Htz Hd Htd u Hcache Hdetect Hip Hlists Hids
         Hnet Hstatus.
  split; [|reflexivity].
  assert (Hinit : __init__ env (default_config_file env) w = (Ok u, w)).
  { rewrite (init_loaded env _ w content config Hfile Hjson).
    unfold mbind, result_bind. now rewrite Ha, Hta, Hz, Htz, Hd, Htd. }
  rewrite (main_of_init_ok env w u Hinit).
  destruct (get_current_ip_frame _ _ _ _ Hdetect) as [k Hw1].
  assert (Hload : get_last_known_ip env u w1 = (Ok (None, None), w1)).
  { rewrite get_last_known_ip_spec.
    replace (fs w1) with (fs w) by now subst w1.
    cbn [ip_cache_file u]. now rewrite Hcache. }
  assert (Hbody :
    run_body env u w
    = (update_dns_records env u ip;; save_current_ip env u ip) w1).
  { unfold run_body. erewrite bind_ok by exact Hdetect. cbn beta iota.
    rewrite (eqb_empty_false _ Hip).
    erewrite bind_ok by exact Hload. reflexivity. }
  rewrite (run_changed_outcome env u w ip ids w1 Hbody Hlists Hids).
  cbv zeta. rewrite Hnet, Hstatus. change (200 =? 200) with true. cbn beta iota.
  rewrite save_current_ip_spec. subst w1. reflexivity.
Qed.

Lemma first_run_creates_cache_witness :
  let env := env_of echo_third (ok (Json.dumps zone)) (ok "{}") in
  let w := world_of [(config_file, Json.dumps config)] in
  fst (main env w) = Ok tt
  /\ stdout (snd (main env w)) = []
  /\ fs (snd (main env w)) !! cache = Some "203.0.113.5,2024-01-01T12:00:00".
Proof.
  intros env w.
  destruct (first_run_creates_cache env w (Json.dumps config) config
              (JStr "t0k3n") (JStr "z0ne")
              (JArr [JStr "home.example.com"; JStr "vpn.example.com"])
              "203.0.113.5" (sent w (map ip_request ip_services))
              [JStr "r1"; JStr "r4"] (mk_response 200 "{}"))
    as [Hmain _]; try reflexivity; try discriminate.
  - exists (mk_response 200 (Json.dumps zone)), zone.
    eexists. eexists. repeat split; reflexivity.
  - rewrite Hmain. repeat split.
Defined.
